(** * TuneGAN (Streamlit text-to-music front end): model of [app.py]

    The program is a Streamlit script.  Its own logic is the four helpers
    [load_model], [generate_music], [save_waveform], [download_link] and the
    "Generate" branch of the page.  Everything else is a call into a
    library (audiocraft, torchaudio, base64, pathlib, streamlit); those
    calls are modelled here by their interface, and the parts of them that
    the program cannot see into (model weights, sampling, the WAV encoder)
    are left abstract in the record [Backend]. *)

From Stdlib Require Import ZArith NArith Lia DecimalString DecimalPos DecimalZ.
From Stdlib.Strings Require Import Ascii String Byte.
From stdpp Require Import base option list strings gmap.

Open Scope Z_scope.

(** ** Python [str]: a sequence of Unicode code points *)

Module PyStr.

Definition pystr := list N.

(** An ASCII literal of the source as a [str]. *)
Definition lit (s : string) : pystr := map N_of_ascii (list_ascii_of_string s).

(** [str.isspace] on one code point (CPython's [_PyUnicode_IsWhitespace]). *)
Definition isspace (c : N) : bool :=
  (((9 <=? c) && (c <=? 13)) || ((28 <=? c) && (c <=? 32))
   || (c =? 133) || (c =? 160) || (c =? 5760)
   || ((8192 <=? c) && (c <=? 8202))
   || (c =? 8232) || (c =? 8233) || (c =? 8239) || (c =? 8287)
   || (c =? 12288))%N.

Fixpoint lstrip (s : pystr) : pystr :=
  match s with
  | c :: s' => if isspace c then lstrip s' else s
  | [] => []
  end.

Definition rstrip (s : pystr) : pystr := rev (lstrip (rev s)).

(** [s.strip()] with no argument. *)
Definition strip (s : pystr) : pystr := rstrip (lstrip s).

(** Truth value of a [str] in a condition: non-empty. *)
Definition truthy (s : pystr) : bool :=
  match s with [] => false | _ :: _ => true end.

(** [f"{i}"] for an [int]. *)
Definition str_of_int (i : Z) : string := NilZero.string_of_int (Z.to_int i).

End PyStr.
Export PyStr.

(** ** [pathlib.Path]: the relative paths the program builds *)

Module PyPath.

(** A relative path is its sequence of components. *)
Definition Path := list string.

(** [Path(s)] for a single-component [s]. *)
Definition mk (s : string) : Path := [s].

(** [p / name] for a [name] without separator. *)
Definition join (p : Path) (name : string) : Path := p ++ [name].

(** [p.name]: the final component. *)
Definition name (p : Path) : string := default ""%string (last p).

(** [str(p)] on a POSIX host. *)
Fixpoint to_str (p : Path) : string :=
  match p with
  | [] => "."
  | [c] => c
  | c :: p' => c +:+ "/" +:+ to_str p'
  end.

End PyPath.

(** ** [base64.b64encode] / [base64.b64decode] (RFC 4648, standard alphabet) *)

Module Base64.

Open Scope N_scope.

(** The character of a 6-bit value. *)
Definition b64_char (n : N) : ascii :=
  if n <? 26 then ascii_of_N (65 + n)
  else if n <? 52 then ascii_of_N (97 + (n - 26))
  else if n <? 62 then ascii_of_N (48 + (n - 52))
  else if n =? 62 then "+"%char
  else "/"%char.

(** The 6-bit value of a character of the alphabet. *)
Definition b64_index (c : ascii) : option N :=
  let k := N_of_ascii c in
  if (65 <=? k) && (k <=? 90) then Some (k - 65)
  else if (97 <=? k) && (k <=? 122) then Some (k - 97 + 26)
  else if (48 <=? k) && (k <=? 57) then Some (k - 48 + 52)
  else if k =? 43 then Some 62
  else if k =? 47 then Some 63
  else None.

Definition pad : ascii := "="%char.

Definition byte_of_N (n : N) : byte := default x00 (Byte.of_N n).

Fixpoint b64encode (data : list byte) : string :=
  match data with
  | [] => ""
  | [a] =>
      let n := Byte.to_N a * 65536 in
      String (b64_char (n / 262144))
        (String (b64_char ((n / 4096) mod 64))
           (String pad (String pad "")))
  | [a; b] =>
      let n := Byte.to_N a * 65536 + Byte.to_N b * 256 in
      String (b64_char (n / 262144))
        (String (b64_char ((n / 4096) mod 64))
           (String (b64_char ((n / 64) mod 64)) (String pad "")))
  | a :: b :: c :: rest =>
      let n := Byte.to_N a * 65536 + Byte.to_N b * 256 + Byte.to_N c in
      String (b64_char (n / 262144))
        (String (b64_char ((n / 4096) mod 64))
           (String (b64_char ((n / 64) mod 64))
              (String (b64_char (n mod 64)) (b64encode rest))))
  end.

Fixpoint b64decode (s : string) : option (list byte) :=
  match s with
  | EmptyString => Some []
  | String c0 (String c1 (String c2 (String c3 rest))) =>
      if Ascii.eqb c3 pad then
        match rest with
        | EmptyString =>
            if Ascii.eqb c2 pad then
              i0 ← b64_index c0; i1 ← b64_index c1;
              Some [byte_of_N ((i0 * 64 + i1) / 16)]
            else
              i0 ← b64_index c0; i1 ← b64_index c1; i2 ← b64_index c2;
              let n := (i0 * 64 + i1) * 64 + i2 in
              Some [byte_of_N (n / 1024); byte_of_N ((n / 4) mod 256)]
        | _ => None
        end
      else
        i0 ← b64_index c0; i1 ← b64_index c1;
        i2 ← b64_index c2; i3 ← b64_index c3;
        tl ← b64decode rest;
        let n := ((i0 * 64 + i1) * 64 + i2) * 64 + i3 in
        Some (byte_of_N (n / 65536) :: byte_of_N ((n / 256) mod 256)
                :: byte_of_N (n mod 256) :: tl)
  | _ => None
  end.

End Base64.

(** ** The world the script runs in *)

(** [model.set_generation_params] keyword arguments the program passes
    (the remaining ones keep the library's defaults and are not recorded). *)
Record GenerationParams := {
  use_sampling : bool;
  top_k : Z;
  duration : Z;
}.

(** What the program cannot see into: tensors, weights, the sampler and
    the WAV encoder.  [None] stands for the call raising. *)
Record Backend := {
  Tensor : Type;
  Weights : Type;
  (** [MusicGen.get_pretrained(name)], at its [n]-th call in the process:
      the weights and the parameters the constructor leaves on the object. *)
  get_pretrained : nat -> string -> option (Weights * GenerationParams);
  (** [model.generate(prompts, progress=True)]: a batch of waveforms, from
      the weights, the parameters currently on the object, the prompts and
      the state of the random generator. *)
  generate : Weights -> GenerationParams -> list pystr -> nat -> option (list Tensor);
  (** [wave.detach().cpu()]. *)
  detach_cpu : Tensor -> Tensor;
  (** The bytes [torchaudio.save(path, wave, sr)] puts in a [.wav] file. *)
  wav_encode : Tensor -> Z -> option (list byte);
}.

Inductive exn :=
| LoadError
| GenerationError
| IndexError
| SaveError
| FileNotFoundError
| DanglingHandle.

(** Calls into Streamlit that render something.  Calls whose arguments are
    literals of the source carry the name of the call only. *)
Inductive Ui :=
| UiLayout (call : string)
| UiWarning (msg : pystr)
| UiInfo (msg : pystr)
| UiSuccess (msg : pystr)
| UiAudio (data : list byte) (format : string)
| UiMarkdown (html : pystr)
| UiSpinnerEnter
| UiSpinnerExit.

(** Calls that leave the script, in program order. *)
Inductive Event :=
| EvLoad (name : string)
| EvSetParams (model : nat) (p : GenerationParams)
| EvGenerate (model : nat) (prompts : list pystr)
| EvSave (path : string) (sr : Z)
| EvRead (path : string)
| EvUi (u : Ui).

Inductive outcome (A : Type) :=
| Ret (a : A)
| Raise (e : exn)
| Stop.
Arguments Ret {A} a.
Arguments Raise {A} e.
Arguments Stop {A}.

Section Program.

Variable B : Backend.

(** A [MusicGen] object: immutable weights, mutable parameters. *)
Record Model := {
  weights : Weights B;
  params : GenerationParams;
}.

(** The state of the hosting process.  Objects live in [heap] and are
    named by their position, so two names of one object see the same
    updates. *)
Record Process := {
  cache : option nat;          (* [st.cache_resource] entry of [load_model] *)
  heap : list Model;           (* the [MusicGen] objects created so far *)
  loads : nat;                 (* calls of [MusicGen.get_pretrained] so far *)
  rng : nat;                   (* state of the random generator *)
  fs : gmap string (list byte);  (* files, by [str(path)] *)
  trace : list Event;
}.

Definition initial : Process :=
  {| cache := None; heap := []; loads := 0; rng := 0; fs := ∅; trace := [] |}.

Definition set_cache (c : option nat) (s : Process) : Process :=
  {| cache := c; heap := heap s; loads := loads s; rng := rng s;
     fs := fs s; trace := trace s |}.
Definition set_heap (h : list Model) (s : Process) : Process :=
  {| cache := cache s; heap := h; loads := loads s; rng := rng s;
     fs := fs s; trace := trace s |}.
Definition set_loads (n : nat) (s : Process) : Process :=
  {| cache := cache s; heap := heap s; loads := n; rng := rng s;
     fs := fs s; trace := trace s |}.
Definition set_rng (n : nat) (s : Process) : Process :=
  {| cache := cache s; heap := heap s; loads := loads s; rng := n;
     fs := fs s; trace := trace s |}.
Definition set_fs (f : gmap string (list byte)) (s : Process) : Process :=
  {| cache := cache s; heap := heap s; loads := loads s; rng := rng s;
     fs := f; trace := trace s |}.
Definition log (e : Event) (s : Process) : Process :=
  {| cache := cache s; heap := heap s; loads := loads s; rng := rng s;
     fs := fs s; trace := trace s ++ [e] |}.

(** *** State and exceptions *)

Definition M (A : Type) : Type := Process -> outcome A * Process.

Definition ret {A} (a : A) : M A := fun s => (Ret a, s).
Definition raise {A} (e : exn) : M A := fun s => (Raise e, s).
Definition bind {A C} (m : M A) (k : A -> M C) : M C :=
  fun s =>
    match m s with
    | (Ret a, s') => k a s'
    | (Raise e, s') => (Raise e, s')
    | (Stop, s') => (Stop, s')
    end.

Notation "'let!' x ':=' m 'in' k" := (bind m (fun x => k))
  (at level 10, x pattern, m at level 100, k at level 200).
Notation "m ';;;' k" := (bind m (fun _ => k))
  (at level 100, k at level 200, right associativity).

Definition emit (e : Event) : M unit := fun s => (Ret tt, log e s).
Definition ui (u : Ui) : M unit := emit (EvUi u).
Definition layout (call : string) : M unit := ui (UiLayout call).

(** [st.stop()]: ends this run of the script; nothing is raised to the
    caller of the script. *)
Definition st_stop {A} : M A := fun s => (Stop, s).

(** *** Library calls *)

(** [MusicGen.get_pretrained(name)]: builds a new object. *)
Definition MusicGen_get_pretrained (name : string) : M nat :=
  fun s =>
    let s1 := log (EvLoad name) (set_loads (S (loads s)) s) in
    match get_pretrained B (loads s) name with
    | Some (w, p) =>
        (Ret (length (heap s)),
         set_heap (heap s ++ [{| weights := w; params := p |}]) s1)
    | None => (Raise LoadError, s1)
    end.

(** [@st.cache_resource] on a function without arguments: one entry for
    the process; a call that raises stores nothing. *)
Definition cache_resource (f : M nat) : M nat :=
  fun s =>
    match cache s with
    | Some h => (Ret h, s)
    | None =>
        match f s with
        | (Ret h, s') => (Ret h, set_cache (Some h) s')
        | r => r
        end
    end.

(** [model.set_generation_params(use_sampling=.., top_k=.., duration=..)]:
    returns nothing; the parameters are stored on the object. *)
Definition set_generation_params (model : nat)
    (use_sampling : bool) (top_k : Z) (duration : Z) : M unit :=
  fun s =>
    match heap s !! model with
    | Some m =>
        let p := {| use_sampling := use_sampling; top_k := top_k;
                    duration := duration |} in
        (Ret tt,
         log (EvSetParams model p)
           (set_heap (<[model := {| weights := weights m; params := p |}]> (heap s)) s))
    | None => (Raise DanglingHandle, s)
    end.

(** [model.generate(prompts, progress=True)]. *)
Definition model_generate (model : nat) (prompts : list pystr) : M (list (Tensor B)) :=
  fun s =>
    match heap s !! model with
    | Some m =>
        let s1 := log (EvGenerate model prompts) (set_rng (S (rng s)) s) in
        match generate B (weights m) (params m) prompts (rng s) with
        | Some out => (Ret out, s1)
        | None => (Raise GenerationError, s1)
        end
    | None => (Raise DanglingHandle, s)
    end.

(** [batch[i]]. *)
Definition getitem (batch : list (Tensor B)) (i : nat) : M (Tensor B) :=
  match batch !! i with
  | Some w => ret w
  | None => raise IndexError
  end.

(** [torchaudio.save(path, wave, sr)]: the file at [path] is replaced. *)
Definition torchaudio_save (path : string) (wave : Tensor B) (sr : Z) : M unit :=
  fun s =>
    let s1 := log (EvSave path sr) s in
    match wav_encode B wave sr with
    | Some data => (Ret tt, set_fs (<[path := data]> (fs s)) s1)
    | None => (Raise SaveError, s1)
    end.

(** [path.read_bytes()]. *)
Definition read_bytes (path : PyPath.Path) : M (list byte) :=
  fun s =>
    let s1 := log (EvRead (PyPath.to_str path)) s in
    match fs s !! PyPath.to_str path with
    | Some data => (Ret data, s1)
    | None => (Raise FileNotFoundError, s1)
    end.

(** [with st.spinner(..): body]: the spinner is removed however the body
    ends. *)
Definition spinner {A} (body : M A) : M A :=
  fun s =>
    let (r, s') := body (log (EvUi UiSpinnerEnter) s) in
    (r, log (EvUi UiSpinnerExit) s').

(** [st.number_input(label, min_value, max_value, value)] with integer
    arguments: the control starts at [value]; of the numbers the user has
    entered so far it keeps the last one inside the bounds and refuses the
    others. *)
Definition number_input (min_value max_value value : Z) (entries : list Z) : Z :=
  fold_left
    (fun cur e => if (min_value <=? e) && (e <=? max_value) then e else cur)
    entries value.

(** *** The helpers of [app.py] *)

Definition AUDIO_DIR : PyPath.Path := PyPath.mk "audio_output".

Definition MODEL_NAME : string := "facebook/musicgen-small".

Definition load_model : M nat :=
  cache_resource (MusicGen_get_pretrained MODEL_NAME).

Definition generate_music (description : pystr) (duration : Z) : M (Tensor B) :=
  let! model := load_model in
  set_generation_params model true 250 duration;;;
  let! batch := model_generate model [description] in
  getitem batch 0.

(** The path [save_waveform] writes for [idx]. *)
Definition audio_path (idx : Z) : PyPath.Path :=
  PyPath.join AUDIO_DIR ("audio_" +:+ str_of_int idx +:+ ".wav").

Definition save_waveform (wave : Tensor B) (idx : Z) (sr : Z) : M PyPath.Path :=
  let path := audio_path idx in
  torchaudio_save (PyPath.to_str path) (detach_cpu B wave) sr;;;
  ret path.

(** The text of the link, around the payload, the file name and the label. *)
Definition link_html (b64 : string) (name : string) (label : pystr) : pystr :=
  [10%N] ++ lit "        <a href=" ++ [34%N] ++ lit "data:audio/wav;base64,"
    ++ lit b64 ++ [34%N] ++ lit " download=" ++ [34%N] ++ lit name ++ [34%N]
    ++ lit ">" ++ label ++ lit " " ++ [11015%N] ++ lit "</a>" ++ [10%N]
    ++ lit "    ".

Definition download_link (file_path : PyPath.Path) (label : pystr) : M pystr :=
  let! data := read_bytes file_path in
  let b64 := Base64.b64encode data in
  ret (link_html b64 (PyPath.name file_path) label).

(** *** Vocabulary for the statements *)

(** The object [load_model] hands out in state [s], with its weights:
    the cached one, or the one a first load would build. *)
Definition after_load (s : Process) : option (nat * Weights B) :=
  match cache s with
  | Some h => m ← heap s !! h; Some (h, weights m)
  | None => wp ← get_pretrained B (loads s) MODEL_NAME; Some (length (heap s), wp.1)
  end.

(** The events a call of [load_model] adds in state [s]. *)
Definition load_events (s : Process) : list Event :=
  match cache s with
  | Some _ => []
  | None => [EvLoad MODEL_NAME]
  end.

(** The sampler answers with one waveform per prompt. *)
Definition one_per_prompt : Prop :=
  forall w p prompts n batch,
    generate B w p prompts n = Some batch -> length batch = length prompts.

Definition is_save (e : Event) : bool :=
  match e with EvSave _ _ => true | _ => false end.
Definition is_read (e : Event) : bool :=
  match e with EvRead _ => true | _ => false end.
Definition is_load (e : Event) : bool :=
  match e with EvLoad _ => true | _ => false end.

(** The durations handed to the model in a trace. *)
Definition durations (tr : list Event) : list Z :=
  omap (fun e => match e with EvSetParams _ p => Some (duration p) | _ => None end) tr.

(** The paths handed to [torchaudio.save] in a trace. *)
Definition saved_paths (tr : list Event) : list string :=
  omap (fun e => match e with EvSave p _ => Some p | _ => None end) tr.

(** *** The script *)

Inductive Page := Generate | About.

(** What the browser holds when a run of the script starts. *)
Record Inputs := {
  page : Page;                   (* the sidebar radio *)
  description : pystr;           (* the text area *)
  duration_entries : list Z;     (* numbers typed into the duration control *)
  generate_btn : bool;           (* the button was pressed *)
}.

Definition warning_msg : pystr := lit "Please enter a prompt first. " ++ [128172%N].
Definition info_msg : pystr := lit "Enter a prompt and hit **Generate Music** to begin.".
Definition success_msg : pystr := lit "Done! Enjoy your music. " ++ [127911%N].
Definition card_open : pystr :=
  lit "<div class=" ++ [34%N] ++ lit "st-audio-card" ++ [34%N] ++ lit ">".
Definition card_close : pystr := lit "</div>".

(** Lines 13-106: page configuration, style sheet, sidebar.  The call
    [AUDIO_DIR.mkdir(exist_ok=True)] of line 67 makes sure the directory is
    there; [fs] holds files only, so it leaves no mark here. *)
Definition preamble : M unit :=
  layout "set_page_config";;;
  layout "markdown";;;
  layout "sidebar.radio";;;
  layout "sidebar.markdown";;;
  layout "sidebar.markdown".

(** Lines 111-147. *)
Definition generate_page (i : Inputs) : M unit :=
  layout "title";;;
  layout "caption";;;
  let description := description i in
  layout "text_area";;;
  layout "columns";;;
  let duration := number_input 1 30 10 (duration_entries i) in
  layout "number_input";;;
  layout "button";;;
  if generate_btn i then
    (if negb (truthy (strip description))
     then ui (UiWarning warning_msg);;; st_stop
     else ret tt);;;
    let! (waveform, file_path) :=
      spinner
        (let! waveform := generate_music description duration in
         let! file_path := save_waveform waveform 0 32000 in
         ret (waveform, file_path)) in
    layout "container";;;
    ui (UiMarkdown card_open);;;
    layout "subheader";;;
    layout "expander";;;
    let! data := read_bytes file_path in
    ui (UiAudio data "audio/wav");;;
    let! link := download_link file_path (lit "Save .wav") in
    ui (UiMarkdown link);;;
    ui (UiMarkdown card_close);;;
    ui (UiSuccess success_msg)
  else
    ui (UiInfo info_msg).

(** The entries of [devs]: the dictionaries' ["name"], ["img"], ["bio"]. *)
Record Dev := {
  dev_name : string;
  dev_img : string;
  dev_bio : pystr;
}.

Definition avatar : string := "https://avatars.githubusercontent.com/u/11537016?v=4".

Definition final_year : pystr :=
  lit "Final" ++ [8209%N] ++ lit "year B.E." ++ [160%N]
    ++ lit "Computer Science, SDM College of Engineering & Technology, Dharwad".

Definition devs : list Dev :=
  map (fun n => {| dev_name := n; dev_img := avatar; dev_bio := final_year |})
    ["Aditya Anand Joshi"; "Kirankumar Devarakondi"; "Vallabh Nayamgoud";
     "Varun Sultanpur"]%string.

Fixpoint for_each {A} (l : list A) (body : A -> M unit) : M unit :=
  match l with
  | [] => ret tt
  | x :: l' => body x;;; for_each l' body
  end.

(** Lines 150-193. *)
Definition about_page : M unit :=
  layout "title";;;
  layout "write";;;
  layout "markdown";;;
  layout "subheader";;;
  layout "columns";;;
  layout "image";;;
  layout "markdown";;;
  layout "markdown";;;
  layout "subheader";;;
  for_each devs (fun d =>
    layout "columns";;;
    layout "image";;;
    ui (UiMarkdown (lit "**" ++ lit (dev_name d) ++ lit "**  " ++ [10%N] ++ dev_bio d));;;
    layout "markdown");;;
  layout "caption".

(** One run of the script. *)
Definition main (i : Inputs) : M unit :=
  preamble;;;
  match page i with
  | Generate => generate_page i
  | About => about_page
  end.

(** The process over its life: the script is run again on every
    interaction; a run that raises or stops leaves the process alive. *)
Definition session (runs : list Inputs) (s : Process) : Process :=
  fold_left (fun s i => snd (main i s)) runs s.

(** *** What a run may change *)

(** The parameters [generate_music] leaves on the model. *)
Definition gen_params (d : Z) : GenerationParams :=
  {| use_sampling := true; top_k := 250; duration := d |}.

(** [str(AUDIO_DIR / "audio_0.wav")]. *)
Definition OUT : string := PyPath.to_str (audio_path 0).

(** The events of a run of the "Generate" page up to the spinner. *)
Definition page_head : list Event :=
  map (fun c => EvUi (UiLayout c))
    ["set_page_config"; "markdown"; "sidebar.radio"; "sidebar.markdown";
     "sidebar.markdown"; "title"; "caption"; "text_area"; "columns";
     "number_input"; "button"]%string.

(** The events of the result card, from the end of the spinner on. *)
Definition result_card (data : list byte) : list Event :=
  [EvUi UiSpinnerExit;
   EvUi (UiLayout "container"); EvUi (UiMarkdown card_open);
   EvUi (UiLayout "subheader"); EvUi (UiLayout "expander");
   EvRead OUT; EvUi (UiAudio data "audio/wav");
   EvRead OUT;
   EvUi (UiMarkdown
           (link_html (Base64.b64encode data) "audio_0.wav" (lit "Save .wav")));
   EvUi (UiMarkdown card_close); EvUi (UiSuccess success_msg)].

(** An event a run may add: parameters as [generate_music] sets them from
    the duration control, and a save to [OUT] at 32 kHz. *)
Definition event_ok (e : Event) : Prop :=
  match e with
  | EvSetParams _ p =>
      use_sampling p = true /\ top_k p = 250 /\ 1 <= duration p <= 30
  | EvSave path sr => path = OUT /\ sr = 32000
  | _ => True
  end.

(** What relates the process before and after any number of runs. *)
Record run_rel (s s' : Process) : Prop := {
  rel_fs : forall p, p ≠ OUT -> fs s' !! p = fs s !! p;
  rel_trace : exists new, trace s' = trace s ++ new /\ Forall event_ok new;
  rel_cache : forall h, cache s = Some h -> cache s' = Some h /\ loads s' = loads s;
  rel_heap : forall h m, heap s !! h = Some m ->
    exists m', heap s' !! h = Some m' /\ weights m' = weights m /\
      (params m' = params m \/
       exists d, 1 <= d <= 30 /\ params m' = gen_params d);
}.

(** A computation all of whose effects stay inside a relation. *)
Definition preserves {A} (R : Process -> Process -> Prop) (m : M A) : Prop :=
  forall s, R s (m s).2.

End Program.

Arguments cache {B} p.
Arguments heap {B} p.
Arguments loads {B} p.
Arguments rng {B} p.
Arguments fs {B} p.
Arguments trace {B} p.
Arguments weights {B} m.
Arguments params {B} m.
Arguments preserves {B A} R m.

(** ** Vocabulary for further statements *)

Section Observations.

Variable B : Backend.

(** The state after a list of events has been added to the trace. *)
Fixpoint logs (es : list Event) (s : Process B) : Process B :=
  match es with
  | [] => s
  | e :: es' => logs es' (log B e s)
  end.



(** A computation that only renders: it returns, and adds rendering
    events and nothing else. *)
Definition renders {A} (m : M B A) : Prop :=
  forall s, exists a us, m s = (Ret a, logs (map EvUi us) s).

(** At most one model object exists, and the cache names it. *)
Definition one_model (s : Process B) : Prop :=
  match cache s with
  | None => heap s = []
  | Some h => h = 0%nat /\ length (heap s) = 1%nat
  end.

End Observations.

Arguments renders {B A} m.

(** How a reader of the anchor finds its target: the text between the
    first two double quotes. *)
Fixpoint after_quote (s : pystr) : pystr :=
  match s with
  | [] => []
  | c :: s' => if (c =? 34)%N then s' else after_quote s'
  end.

Fixpoint until_quote (s : pystr) : pystr :=
  match s with
  | [] => []
  | c :: s' => if (c =? 34)%N then [] else c :: until_quote s'
  end.

Definition first_attribute (html : pystr) : pystr := until_quote (after_quote html).

Fixpoint strip_prefix (p s : pystr) : option pystr :=
  match p, s with
  | [], _ => Some s
  | a :: p', b :: s' => if (a =? b)%N then strip_prefix p' s' else None
  | _ :: _, [] => None
  end.

(** The ASCII text of a [str]. *)
Definition unlit (s : pystr) : string := string_of_list_ascii (map ascii_of_N s).

(** The bytes a data URI of type [audio/wav] carries. *)
Definition data_uri_bytes (uri : pystr) : option (list byte) :=
  payload ← strip_prefix (lit "data:audio/wav;base64,") uri;
  Base64.b64decode (unlit payload).

(** ** A small backend to run the model on

    Tensors are lists of samples; the sampler answers every prompt with
    [duration] samples; the encoder writes one byte per sample after a
    one-byte header that depends on the rate. *)

Module Toy.

Definition toy_header (sr : Z) : byte := Base64.byte_of_N (Z.to_N (sr mod 256)).

Definition toy : Backend := {|
  Tensor := list byte;
  Weights := unit;
  get_pretrained := fun _ _ =>
    Some (tt, {| use_sampling := true; top_k := 250; duration := 15 |});
  generate := fun _ p prompts n =>
    Some (map (fun prompt : pystr =>
                 repeat (Base64.byte_of_N (N.of_nat n + N.of_nat (length prompt)))
                   (Z.to_nat (duration p)))
            prompts);
  detach_cpu := fun w => w;
  wav_encode := fun w sr => Some (toy_header sr :: w);
|}.

Definition prompt : pystr := lit "lofi".

Definition press (d : list Z) (text : pystr) : Inputs :=
  {| page := Generate; description := text; duration_entries := d;
     generate_btn := true |}.

End Toy.

(** The toy backend with faults: each of the three calls into the
    libraries can be made to raise. *)

Module ToyFaults.

Definition faulty (load_ok gen_ok save_ok : bool) : Backend := {|
  Tensor := list byte;
  Weights := unit;
  get_pretrained := fun n name =>
    if load_ok then get_pretrained Toy.toy n name else None;
  generate := fun w p prompts n =>
    if gen_ok then generate Toy.toy w p prompts n else None;
  detach_cpu := fun w => w;
  wav_encode := fun w sr => if save_ok then wav_encode Toy.toy w sr else None;
|}.

Definition offline : Backend := faulty false true true.
Definition mute : Backend := faulty true false true.
Definition diskfull : Backend := faulty true true false.


End ToyFaults.

(** * Properties *)

(** ** Small runs of the definitions *)

Example str_of_int_0 : str_of_int 0 = "0"%string.
Proof. reflexivity. Qed.

Example str_of_int_neg : str_of_int (-12) = "-12"%string.
Proof. reflexivity. Qed.

Example b64_man : Base64.b64encode [x4d; x61; x6e] = "TWFu"%string.
Proof. reflexivity. Qed.

Example b64_ma : Base64.b64encode [x4d; x61] = "TWE="%string.
Proof. reflexivity. Qed.

Example b64_dec_m : Base64.b64decode "TQ==" = Some [x4d].
Proof. reflexivity. Qed.

Example number_input_default : number_input 1 30 10 [] = 10.
Proof. reflexivity. Qed.

Example number_input_refuses : number_input 1 30 10 [7; 0; 31] = 7.
Proof. reflexivity. Qed.

Example strip_spaces : strip (lit "  a b  ") = lit "a b".
Proof. reflexivity. Qed.

(** ** Base64 *)

Section Base64Facts.
Import Base64.
Local Open Scope N_scope.

Ltac Zify.zify_post_hook ::= Z.to_euclidean_division_equations.

Lemma sextet_cases (P : N -> Prop) :
(forall k : nat, (k < 64)%nat -> P (N.of_nat k)) -> forall n, n < 64 -> P n.
Proof.
intros HP n Hn. rewrite <- (N2Nat.id n). apply HP. lia.
Qed.

Lemma b64_index_char n : n < 64 -> b64_index (b64_char n) = Some n.
Proof.
revert n. apply sextet_cases. intros k Hk.
do 64 (destruct k as [|k]; [reflexivity|]). lia.
Qed.

Lemma b64_char_not_pad n : n < 64 -> Ascii.eqb (b64_char n) pad = false.
Proof.
revert n. apply sextet_cases. intros k Hk.
do 64 (destruct k as [|k]; [reflexivity|]). lia.
Qed.

Lemma byte_of_to_N a : byte_of_N (Byte.to_N a) = a.
Proof. unfold byte_of_N. now rewrite Byte.of_to_N. Qed.

Lemma byte_of_N_eq n a : n = Byte.to_N a -> byte_of_N n = a.
Proof. intros ->. apply byte_of_to_N. Qed.

Lemma to_N_lt a : Byte.to_N a < 256.
Proof. pose proof (Byte.to_N_bounded a). lia. Qed.

Lemma decode_quad i0 i1 i2 i3 rest :
i0 < 64 -> i1 < 64 -> i2 < 64 -> i3 < 64 ->
b64decode (String (b64_char i0) (String (b64_char i1)
             (String (b64_char i2) (String (b64_char i3) rest)))) =
tl ← b64decode rest;
let n := ((i0 * 64 + i1) * 64 + i2) * 64 + i3 in
Some (byte_of_N (n / 65536) :: byte_of_N ((n / 256) mod 256)
        :: byte_of_N (n mod 256) :: tl).
Proof.
intros H0 H1 H2 H3. cbn [b64decode].
rewrite (b64_char_not_pad i3 H3).
rewrite !b64_index_char by assumption. reflexivity.
Qed.

Lemma decode_pad1 i0 i1 :
i0 < 64 -> i1 < 64 ->
b64decode (String (b64_char i0) (String (b64_char i1)
             (String pad (String pad "")))) =
Some [byte_of_N ((i0 * 64 + i1) / 16)].
Proof.
intros H0 H1. cbn [b64decode].
replace (Ascii.eqb pad pad) with true by reflexivity.
rewrite !b64_index_char by assumption. reflexivity.
Qed.

Lemma decode_pad2 i0 i1 i2 :
i0 < 64 -> i1 < 64 -> i2 < 64 ->
b64decode (String (b64_char i0) (String (b64_char i1)
             (String (b64_char i2) (String pad "")))) =
let n := (i0 * 64 + i1) * 64 + i2 in
Some [byte_of_N (n / 1024); byte_of_N ((n / 4) mod 256)].
Proof.
intros H0 H1 H2. cbn [b64decode].
replace (Ascii.eqb pad pad) with true by reflexivity.
rewrite (b64_char_not_pad i2 H2).
rewrite !b64_index_char by assumption. reflexivity.
Qed.

Lemma b64_roundtrip x : b64decode (b64encode x) = Some x.
Proof.
remember (length x) as n eqn:Hn. revert x Hn.
induction n as [n IH] using lt_wf_ind. intros [|a [|b [|c rest]]] Hn.
- reflexivity.
- pose proof (to_N_lt a). cbn [b64encode].
  rewrite decode_pad1 by lia.
  do 2 f_equal. apply byte_of_N_eq. lia.
- pose proof (to_N_lt a). pose proof (to_N_lt b). cbn [b64encode].
  rewrite decode_pad2 by lia. cbv zeta.
  do 2 f_equal; [|f_equal]; apply byte_of_N_eq; lia.
- pose proof (to_N_lt a). pose proof (to_N_lt b). pose proof (to_N_lt c).
  cbn [b64encode].
  rewrite decode_quad by lia.
  rewrite (IH (length rest)) by (subst n; cbn [length]; lia || reflexivity).
  cbn [mbind option_bind]. cbv zeta.
  do 2 f_equal; [|f_equal; [|f_equal]]; apply byte_of_N_eq; lia.
Qed.

End Base64Facts.

(** ** Whitespace *)

Lemma lstrip_blank t : forallb isspace t = true -> lstrip t = [].
Proof.
  induction t as [|c t IH]; cbn; [done|].
  destruct (isspace c); cbn; [exact IH|done].
Qed.

Lemma lstrip_head t :
  match lstrip t with c :: _ => isspace c = false | [] => True end.
Proof.
  induction t as [|c t IH]; cbn; [done|].
  destruct (isspace c) eqn:Hc; [exact IH|exact Hc].
Qed.

Lemma lstrip_nil t : lstrip t = [] -> forallb isspace t = true.
Proof.
  induction t as [|c t IH]; cbn; [done|].
  destruct (isspace c); cbn; [exact IH|done].
Qed.

Lemma forallb_rev {A} (f : A -> bool) l : forallb f (rev l) = forallb f l.
Proof.
  induction l as [|x l IH]; cbn; [done|].
  rewrite forallb_app, IH. cbn. rewrite andb_true_r. apply andb_comm.
Qed.

Lemma strip_nil_iff t : strip t = [] <-> forallb isspace t = true.
Proof.
  unfold strip, rstrip. split.
  - intros H. apply (f_equal (@rev N)) in H. rewrite rev_involutive in H.
    cbn in H. apply lstrip_nil in H. rewrite forallb_rev in H.
    pose proof (lstrip_head t) as Hh.
    destruct (lstrip t) as [|c t'] eqn:Ht; [by apply lstrip_nil|].
    cbn in H. rewrite Hh in H. done.
  - intros H. by rewrite (lstrip_blank t H).
Qed.

Lemma truthy_strip t : truthy (strip t) = negb (forallb isspace t).
Proof.
  destruct (forallb isspace t) eqn:H.
  - apply strip_nil_iff in H. by rewrite H.
  - destruct (strip t) eqn:Hs; [|done].
    apply strip_nil_iff in Hs. congruence.
Qed.

(** ** What every run preserves *)

Section Invariants.
Variable B : Backend.
Implicit Types s : Process B.

Lemma run_rel_refl s : run_rel B s s.
Proof.
  split; try done.
  - exists []. by rewrite app_nil_r.
  - intros h m Hm. exists m. auto.
Qed.

Lemma run_rel_trans s1 s2 s3 : run_rel B s1 s2 -> run_rel B s2 s3 -> run_rel B s1 s3.
Proof.
  intros [F1 (n1 & T1 & O1) C1 H1] [F2 (n2 & T2 & O2) C2 H2]. split.
  - intros p Hp. rewrite F2, F1; done.
  - exists (n1 ++ n2). rewrite T2, T1, app_assoc. split; [done|].
    by apply Forall_app.
  - intros h Hh. destruct (C1 h Hh) as [Hc Hl].
    destruct (C2 h Hc) as [Hc' Hl']. split; congruence.
  - intros h m Hm. destruct (H1 h m Hm) as (m1 & Hm1 & W1 & P1).
    destruct (H2 h m1 Hm1) as (m2 & Hm2 & W2 & P2).
    exists m2. split; [done|]. split; [congruence|].
    destruct P2 as [P2|P2]; [|by right].
    destruct P1 as [P1|P1]; [left; congruence|right].
    destruct P1 as (d & Hd & P1). exists d. split; [done|congruence].
Qed.

Lemma preserves_ret {A} (a : A) : preserves (run_rel B) (ret B a).
Proof. intros s. apply run_rel_refl. Qed.

Lemma preserves_raise {A} e : preserves (run_rel B) (raise B (A:=A) e).
Proof. intros s. apply run_rel_refl. Qed.

Lemma preserves_stop {A} : preserves (run_rel B) (st_stop B (A:=A)).
Proof. intros s. apply run_rel_refl. Qed.

Lemma preserves_bind {A C} (m : M B A) (k : A -> M B C) :
  preserves (run_rel B) m -> (forall a, preserves (run_rel B) (k a)) ->
  preserves (run_rel B) (bind B m k).
Proof.
  intros Hm Hk s. unfold bind. specialize (Hm s).
  destruct (m s) as [[a|e|] s1]; cbn in *; [|done..].
  eapply run_rel_trans; [exact Hm|apply Hk].
Qed.

Lemma run_rel_log e s : event_ok e -> run_rel B s (log B e s).
Proof.
  intros He. split; cbn; try done.
  - exists [e]. split; [done|]. by constructor.
  - intros h m Hm. exists m. auto.
Qed.

Lemma preserves_ui u : preserves (run_rel B) (ui B u).
Proof. intros s. by apply run_rel_log. Qed.

Lemma preserves_layout c : preserves (run_rel B) (layout B c).
Proof. apply preserves_ui. Qed.

Lemma preserves_spinner {A} (body : M B A) :
  preserves (run_rel B) body -> preserves (run_rel B) (spinner B body).
Proof.
  intros Hb s. unfold spinner.
  specialize (Hb (log B (EvUi UiSpinnerEnter) s)).
  destruct (body _) as [r s1]. cbn in *.
  eapply run_rel_trans; [by apply (run_rel_log (EvUi UiSpinnerEnter))|].
  eapply run_rel_trans; [exact Hb|]. by apply run_rel_log.
Qed.

Lemma preserves_for_each {A} (l : list A) (body : A -> M B unit) :
  (forall x, preserves (run_rel B) (body x)) ->
  preserves (run_rel B) (for_each B l body).
Proof.
  intros Hb. induction l as [|x l IH]; cbn [for_each].
  - apply preserves_ret.
  - apply preserves_bind; [apply Hb|]. intros _. exact IH.
Qed.

Lemma preserves_load_model : preserves (run_rel B) (load_model B).
Proof.
  intros s. unfold load_model, cache_resource, MusicGen_get_pretrained.
  destruct (cache s) as [h|] eqn:Hc; [apply run_rel_refl|].
  destruct (get_pretrained B (loads s) MODEL_NAME) as [[w p]|]; cbn.
  - split; cbn; try done.
    + exists [EvLoad MODEL_NAME]. split; [done|]. by constructor.
    + congruence.
    + intros h m Hm. exists m. split; [|auto].
      by apply lookup_app_l_Some.
  - split; cbn; try done.
    + exists [EvLoad MODEL_NAME]. split; [done|]. by constructor.
    + congruence.
    + intros h m Hm. exists m. auto.
Qed.

Lemma preserves_set_generation_params h d :
  1 <= d <= 30 -> preserves (run_rel B) (set_generation_params B h true 250 d).
Proof.
  intros Hd s. unfold set_generation_params.
  destruct (heap s !! h) as [m|] eqn:Hm; [|apply run_rel_refl].
  split; cbn; try done.
  - eexists [_]. split; [done|]. constructor; [|done]. cbn. done.
  - intros h' m' Hm'. destruct (decide (h' = h)) as [->|Hne].
    + rewrite list_lookup_insert_eq by (by eapply lookup_lt_Some).
      eexists. split; [done|]. cbn. split; [congruence|].
      right. exists d. done.
    + rewrite list_lookup_insert_ne by done. exists m'. auto.
Qed.

Lemma preserves_model_generate h prompts :
  preserves (run_rel B) (model_generate B h prompts).
Proof.
  intros s. unfold model_generate.
  destruct (heap s !! h) as [m|]; [|apply run_rel_refl].
  destruct (generate B _ _ _ _); cbn.
  all: split; cbn; try done; [eexists [_]; split; [done|]; by constructor|].
  all: intros h' m' Hm'; exists m'; auto.
Qed.

Lemma preserves_getitem batch i : preserves (run_rel B) (getitem B batch i).
Proof.
  unfold getitem. destruct (batch !! i); [apply preserves_ret|apply preserves_raise].
Qed.

Lemma preserves_generate_music description d :
  1 <= d <= 30 -> preserves (run_rel B) (generate_music B description d).
Proof.
  intros Hd. unfold generate_music.
  apply preserves_bind; [apply preserves_load_model|]. intros h.
  apply preserves_bind; [by apply preserves_set_generation_params|]. intros _.
  apply preserves_bind; [apply preserves_model_generate|]. intros batch.
  apply preserves_getitem.
Qed.

Lemma preserves_save_waveform wave :
  preserves (run_rel B) (save_waveform B wave 0 32000).
Proof.
  unfold save_waveform. apply preserves_bind; [|intros _; apply preserves_ret].
  intros s. unfold torchaudio_save. fold OUT.
  destruct (wav_encode B _ _); cbn.
  all: split; cbn; try done.
  all: try (eexists [_]; split; [done|]; by constructor).
  all: try (intros h' m' Hm'; exists m'; by auto).
  intros p Hp. by rewrite lookup_insert_ne.
Qed.

Lemma preserves_read_bytes path : preserves (run_rel B) (read_bytes B path).
Proof.
  intros s. unfold read_bytes.
  destruct (fs s !! _); cbn; by apply run_rel_log.
Qed.

Lemma preserves_download_link path label :
  preserves (run_rel B) (download_link B path label).
Proof.
  unfold download_link. apply preserves_bind; [apply preserves_read_bytes|].
  intros data. apply preserves_ret.
Qed.

Lemma number_input_bounds lo hi v entries :
  lo <= v <= hi -> lo <= number_input lo hi v entries <= hi.
Proof.
  unfold number_input. revert v.
  induction entries as [|e entries IH]; intros v Hv; cbn [fold_left]; [done|].
  apply IH. destruct ((lo <=? e) && (e <=? hi)) eqn:E; [|done].
  apply andb_prop in E as [E1 E2]. lia.
Qed.

Ltac step :=
  first
    [ apply preserves_layout | apply preserves_ui | apply preserves_ret
    | apply preserves_stop | apply preserves_read_bytes
    | apply preserves_download_link | apply preserves_save_waveform
    | apply preserves_generate_music; apply number_input_bounds; lia
    | apply preserves_spinner | apply preserves_for_each; intros ?
    | apply preserves_bind; [|intros ?] ].

Lemma preserves_main i : preserves (run_rel B) (main B i).
Proof.
  unfold main, preamble. repeat step.
  destruct (page i).
  - unfold generate_page. repeat step.
    destruct (generate_btn i); repeat step.
    + destruct (negb _); repeat step.
    + match goal with p : _ * _ |- _ => destruct p end. repeat step.
  - unfold about_page. repeat step.
Qed.

Lemma run_rel_session runs s : run_rel B s (session B runs s).
Proof.
  unfold session. revert s. induction runs as [|i runs IH]; intros s; cbn [fold_left].
  - apply run_rel_refl.
  - eapply run_rel_trans; [apply preserves_main|apply IH].
Qed.
End Invariants.

(** ** Runs of the helpers and of the page *)

Section Runs.
Variable B : Backend.
Implicit Types s : Process B.

Lemma load_model_run s :
  load_model B s =
  match cache s with
  | Some h => (Ret h, s)
  | None =>
      let s1 := log B (EvLoad MODEL_NAME) (set_loads B (S (loads s)) s) in
      match get_pretrained B (loads s) MODEL_NAME with
      | Some (w, p) =>
          (Ret (length (heap s)),
           set_cache B (Some (length (heap s)))
             (set_heap B (heap s ++ [{| weights := w; params := p |}]) s1))
      | None => (Raise LoadError, s1)
      end
  end.
Proof.
  unfold load_model, cache_resource, MusicGen_get_pretrained.
  destruct (cache s); [reflexivity|].
  destruct (get_pretrained B (loads s) MODEL_NAME) as [[w p]|]; reflexivity.
Qed.

Lemma load_model_ok s h w :
  after_load B s = Some (h, w) ->
  exists s1 p,
    load_model B s = (Ret h, s1) /\
    cache s1 = Some h /\
    heap s1 !! h = Some {| weights := w; params := p |} /\
    fs s1 = fs s /\ rng s1 = rng s /\
    trace s1 = trace s ++ load_events B s.
Proof.
  intros Hl. rewrite load_model_run. unfold after_load, load_events in *.
  destruct (cache s) as [h'|] eqn:Hc.
  - destruct (heap s !! h') as [[w' p]|] eqn:Hm; simplify_eq/=.
    exists s, p. rewrite app_nil_r. done.
  - destruct (get_pretrained B (loads s) MODEL_NAME) as [[w' p]|]; simplify_eq/=.
    eexists _, p. split; [done|]. cbn.
    rewrite lookup_app_r, Nat.sub_diag by done. done.
Qed.

Lemma load_model_fails s :
  after_load B s = None -> exists e, (load_model B s).1 = Raise e \/
     exists h, (load_model B s) = (Ret h, s) /\ heap s !! h = None.
Proof.
  intros Hl. rewrite load_model_run. unfold after_load in *.
  destruct (cache s) as [h'|] eqn:Hc.
  - destruct (heap s !! h') eqn:Hm; [done|]. exists LoadError. right. eauto.
  - destruct (get_pretrained B (loads s) MODEL_NAME) as [[w' p]|]; [done|].
    exists LoadError. by left.
Qed.

Lemma bind_ret {A C} (m : M B A) (k : A -> M B C) s a s' :
  m s = (Ret a, s') -> bind B m k s = k a s'.
Proof. unfold bind. by intros ->. Qed.

Lemma generate_music_run s description d h w :
  after_load B s = Some (h, w) ->
  let r := generate_music B description d s in
  cache r.2 = Some h /\
  heap r.2 !! h = Some {| weights := w; params := gen_params d |} /\
  fs r.2 = fs s /\
  trace r.2 = trace s ++ load_events B s
                ++ [EvSetParams h (gen_params d); EvGenerate h [description]] /\
  r.1 = match generate B w (gen_params d) [description] (rng s) with
        | Some batch =>
            match batch !! 0%nat with Some x => Ret x | None => Raise IndexError end
        | None => Raise GenerationError
        end.
Proof.
  intros Hl. destruct (load_model_ok s h w Hl) as (s1 & p & Hrun & Hc & Hh & Hfs & Hrng & Htr).
  cbv zeta. unfold generate_music. rewrite (bind_ret _ _ _ _ _ Hrun).
  assert (Hlt : (h < length (heap s1))%nat) by (by eapply lookup_lt_Some).
  unfold bind, set_generation_params, model_generate. rewrite Hh. cbn.
  rewrite list_lookup_insert_eq by done. cbn. fold (gen_params d).
  rewrite Hrng.
  destruct (generate B w (gen_params d) [description] (rng s)) as [batch|]; cbn.
  - unfold getitem. destruct (batch !! 0%nat); cbn;
      rewrite list_lookup_insert_eq by done; rewrite Htr, <- !app_assoc; done.
  - rewrite list_lookup_insert_eq by done; rewrite Htr, <- !app_assoc; done.
Qed.

Lemma generate_music_fails s description d :
  after_load B s = None -> exists e, (generate_music B description d s).1 = Raise e.
Proof.
  intros Hl. unfold generate_music, bind.
  destruct (load_model_fails s Hl) as (e & [He|(h & Hr & Hh)]).
  - destruct (load_model B s) as [[?|?|] ?]; simplify_eq/=. eauto.
  - rewrite Hr. unfold set_generation_params. rewrite Hh. eauto.
Qed.

Lemma save_waveform_run wave idx sr s :
  save_waveform B wave idx sr s =
  let path := PyPath.to_str (audio_path idx) in
  let s1 := log B (EvSave path sr) s in
  match wav_encode B (detach_cpu B wave) sr with
  | Some data => (Ret (audio_path idx), set_fs B (<[path := data]> (fs s)) s1)
  | None => (Raise SaveError, s1)
  end.
Proof.
  unfold save_waveform, bind, torchaudio_save.
  destruct (wav_encode B _ _); reflexivity.
Qed.

Lemma main_generate_ok i s h w batch x data :
  page i = Generate -> generate_btn i = true ->
  truthy (strip (description i)) = true ->
  after_load B s = Some (h, w) ->
  let d := number_input 1 30 10 (duration_entries i) in
  generate B w (gen_params d) [description i] (rng s) = Some batch ->
  batch !! 0%nat = Some x ->
  wav_encode B (detach_cpu B x) 32000 = Some data ->
  exists s',
    main B i s = (Ret tt, s') /\
    fs s' = <[OUT := data]> (fs s) /\
    cache s' = Some h /\
    heap s' !! h = Some {| weights := w; params := gen_params d |} /\
    trace s' = trace s ++ page_head ++ [EvUi UiSpinnerEnter] ++ load_events B s
                ++ [EvSetParams h (gen_params d); EvGenerate h [description i];
                    EvSave OUT 32000]
                ++ result_card data.
Proof.
  intros Hpage Hbtn Htext Hl d Hg Hx Hw.
  unfold main, preamble. rewrite Hpage. unfold generate_page.
  rewrite Hbtn, Htext. cbn [negb]. fold d.
  unfold layout, ui, emit, spinner, bind, ret. cbv beta iota.
  match goal with
  | |- context [generate_music B ?a ?b ?st] =>
      pose proof (generate_music_run st a b h w Hl) as (Hc & Hh & Hfs & Htr & Hres);
      destruct (generate_music B a b st) as [o s1]
  end.
  cbn [fst snd rng log] in *. rewrite Hg, Hx in Hres. subst o. cbv beta iota.
  rewrite save_waveform_run, Hw. cbv beta iota zeta.
  unfold download_link, read_bytes, bind, ret. fold OUT.
  do 2 (cbn [fs log set_fs]; rewrite lookup_insert_eq; cbv beta iota).
  eexists. split; [reflexivity|]. cbn [fs cache heap trace log set_fs].
  rewrite Hfs, Htr. cbn [trace log fs load_events cache].
  repeat split; try done.
  rewrite <- !app_assoc. reflexivity.
Qed.
End Runs.

(** ** The toy backend meets the sampler's contract *)

Lemma toy_one_per_prompt : one_per_prompt Toy.toy.
Proof.
  intros w p prompts n batch H. cbn in H. injection H as <-.
  by rewrite length_map.
Qed.

(** ** The helpers *)

Section Helpers.
Variable B : Backend.
Implicit Types s : Process B.

(** C1. Whatever the prompt and the duration, [generate_music] leaves
    [use_sampling=True], [top_k=250] and the given duration on the model,
    then asks the model once, for the one-prompt batch [[description]].
    When no model can be had the call raises; when the sampler raises the
    call raises; otherwise (the sampler answering with one waveform per
    prompt) the batch has a single element and the call returns it. *)
Theorem generate_music_spec description d s :
  one_per_prompt B ->
  let r := generate_music B description d s in
  match after_load B s with
  | None => exists e, r.1 = Raise e
  | Some (h, w) =>
      heap r.2 !! h = Some {| weights := w; params := gen_params d |} /\
      use_sampling (gen_params d) = true /\
      top_k (gen_params d) = 250 /\
      duration (gen_params d) = d /\
      trace r.2 = trace s ++ load_events B s
                    ++ [EvSetParams h (gen_params d); EvGenerate h [description]] /\
      match generate B w (gen_params d) [description] (rng s) with
      | Some batch => exists x, batch = [x] /\ r.1 = Ret x
      | None => r.1 = Raise GenerationError
      end
  end.
Proof.
  intros Hone r. subst r.
  destruct (after_load B s) as [[h w]|] eqn:Hl.
  - destruct (generate_music_run B s description d h w Hl)
      as (_ & Hh & _ & Htr & Hres).
    repeat split; try done.
    destruct (generate B w (gen_params d) [description] (rng s))
      as [batch|] eqn:Hg; [|exact Hres].
    apply Hone in Hg. destruct batch as [|x [|y batch]]; try done.
    exists x. split; [done|exact Hres].
  - by apply generate_music_fails.
Qed.

(** C2. [save_waveform] writes the file at a path that is a function of
    the index alone; a second save at the same index goes to the same path
    and replaces the file: afterwards the file holds the second waveform,
    the file system is what saving the second waveform alone would have
    left, and no other file has changed. *)
Theorem save_waveform_overwrites wave1 wave2 idx sr s data1 data2 :
  wav_encode B (detach_cpu B wave1) sr = Some data1 ->
  wav_encode B (detach_cpu B wave2) sr = Some data2 ->
  let path := PyPath.to_str (audio_path idx) in
  let r1 := save_waveform B wave1 idx sr s in
  let r2 := save_waveform B wave2 idx sr r1.2 in
  r1.1 = Ret (audio_path idx) /\
  r2.1 = Ret (audio_path idx) /\
  fs r1.2 !! path = Some data1 /\
  fs r2.2 !! path = Some data2 /\
  fs r2.2 = fs (save_waveform B wave2 idx sr s).2 /\
  (forall p, p ≠ path -> fs r2.2 !! p = fs s !! p) /\
  saved_paths (trace r2.2) = saved_paths (trace s) ++ [path; path].
Proof.
  intros H1 H2 path r1 r2. subst r1 r2.
  rewrite !save_waveform_run. cbv zeta. fold path.
  rewrite H1, H2. cbn [fst snd fs set_fs log trace].
  repeat split.
  - apply lookup_insert_eq.
  - apply lookup_insert_eq.
  - apply insert_insert_eq.
  - intros p Hp. by rewrite !lookup_insert_ne.
  - unfold saved_paths. rewrite <- app_assoc, omap_app. reflexivity.
Qed.

(** C4. When the cache is filled, or the underlying load succeeds,
    [load_model] returns a model, and calling it again returns the same
    model and changes nothing: the underlying load is not run again.  Over
    the two calls the load ran once when the cache was empty and not at
    all when it was not. *)
Theorem load_model_idempotent s :
  is_Some (cache s) \/ is_Some (get_pretrained B (loads s) MODEL_NAME) ->
  let r1 := load_model B s in
  let r2 := load_model B r1.2 in
  exists h,
    r1.1 = Ret h /\
    r2 = (Ret h, r1.2) /\
    cache r1.2 = Some h /\
    loads r2.2 = (loads s + length (load_events B s))%nat /\
    filter is_load (trace r2.2) = filter is_load (trace s) ++ load_events B s.
Proof.
  intros Hok r1 r2. subst r1 r2. rewrite (load_model_run B s). unfold load_events.
  destruct (cache s) as [h|] eqn:Hc.
  - exists h. cbn [fst snd]. rewrite load_model_run, Hc. cbn [fst snd].
    rewrite Nat.add_0_r, app_nil_r. done.
  - destruct Hok as [[? ?]|[[w p] Hp]]; [done|]. rewrite Hp. cbv zeta.
    exists (length (heap s)). cbn [fst snd]. rewrite load_model_run. cbn.
    rewrite filter_app. split; [done|]. split; [done|]. split; [done|].
    split; [lia|done].
Qed.

(** C5. Decoding the Base64 text of any byte sequence gives the sequence
    back; and for a file holding [data], [download_link] returns the
    anchor whose target is the data URI [data:audio/wav;base64,] followed
    by the Base64 text of [data], and whose [download] attribute is the
    file's name. *)
Theorem download_link_payload :
  (forall x, Base64.b64decode (Base64.b64encode x) = Some x) /\
  (forall file_path label s data,
     fs s !! PyPath.to_str file_path = Some data ->
     let r := download_link B file_path label s in
     r.1 = Ret ([10%N] ++ lit "        <a href=" ++ [34%N]
                  ++ lit "data:audio/wav;base64," ++ lit (Base64.b64encode data)
                  ++ [34%N] ++ lit " download=" ++ [34%N]
                  ++ lit (PyPath.name file_path) ++ [34%N] ++ lit ">" ++ label
                  ++ lit " " ++ [11015%N] ++ lit "</a>" ++ [10%N] ++ lit "    ") /\
     Base64.b64decode (Base64.b64encode data) = Some data /\
     fs r.2 = fs s) /\
  (forall idx,
     PyPath.name (audio_path idx) = ("audio_" +:+ str_of_int idx +:+ ".wav")%string).
Proof.
  split; [exact b64_roundtrip|]. split; [|reflexivity].
  intros file_path label s data Hdata r. subst r.
  unfold download_link, bind, read_bytes. rewrite Hdata. cbn.
  split; [reflexivity|]. split; [apply b64_roundtrip|reflexivity].
Qed.

End Helpers.

(** ** The page *)

Lemma durations_ok new :
  Forall event_ok new -> Forall (fun d => 1 <= d <= 30) (durations new).
Proof.
  unfold durations. induction 1 as [|e new He _ IH]; cbn; [constructor|].
  destruct e; cbn; try exact IH. constructor; [apply He|exact IH].
Qed.

Lemma saved_paths_ok new :
  Forall event_ok new -> Forall (fun p => p = OUT) (saved_paths new).
Proof.
  unfold saved_paths. induction 1 as [|e new He _ IH]; cbn; [constructor|].
  destruct e; cbn; try exact IH. constructor; [apply He|exact IH].
Qed.

Section Pipeline.
Variable B : Backend.
Implicit Types s : Process B.

(** C3. When the button is pressed with a prompt that is empty or made of
    whitespace only, the run shows the warning and stops: it ends by
    [st.stop()], not by an exception; the model is neither loaded nor
    called, no file is written, and nothing of the process changes but
    the rendered output. *)
Theorem blank_prompt_halts (i : Inputs) s :
  page i = Generate ->
  generate_btn i = true ->
  forallb isspace (description i) = true ->
  exists s',
    main B i s = (Stop, s') /\
    fs s' = fs s /\ heap s' = heap s /\ cache s' = cache s /\
    loads s' = loads s /\ rng s' = rng s /\
    trace s' = trace s ++ page_head ++ [EvUi (UiWarning warning_msg)].
Proof.
  intros Hpage Hbtn Hblank.
  unfold main, preamble. rewrite Hpage. unfold generate_page.
  rewrite Hbtn, truthy_strip, Hblank. cbn [negb].
  unfold layout, ui, emit, st_stop, bind. cbv beta iota.
  eexists. split; [reflexivity|]. cbn [fs heap cache loads rng trace log].
  repeat split. rewrite <- !app_assoc. reflexivity.
Qed.


(** C7. The duration control, called with bounds 1 and 30 and start value
    10, always holds a value in [1, 30]; an entry of 0 or of 31 is refused
    and leaves the value as it was; and every duration that reaches the
    model, in any sequence of runs from any state, lies in [1, 30]. *)
Theorem duration_in_range :
  (forall entries, 1 <= number_input 1 30 10 entries <= 30) /\
  (forall entries,
     number_input 1 30 10 (entries ++ [0]) = number_input 1 30 10 entries /\
     number_input 1 30 10 (entries ++ [31]) = number_input 1 30 10 entries) /\
  (forall runs s,
     exists new,
       trace (session B runs s) = trace s ++ new /\
       Forall (fun d => 1 <= d <= 30) (durations new)).
Proof.
  split; [intros entries; apply number_input_bounds; lia|].
  split.
  - intros entries. unfold number_input. by rewrite !fold_left_app.
  - intros runs s.
    destruct (rel_trace B _ _ (run_rel_session B runs s)) as (new & Htr & Hok).
    exists new. split; [exact Htr|by apply durations_ok].
Qed.

(** C8. In a run that generates, the save comes before both reads of the
    file, nothing is saved in between, and both reads return the bytes the
    save wrote: the player receives them, and the link carries their
    Base64 text. *)
Theorem read_follows_write (i : Inputs) s h w batch x data :
  page i = Generate ->
  generate_btn i = true ->
  forallb isspace (description i) = false ->
  after_load B s = Some (h, w) ->
  let d := number_input 1 30 10 (duration_entries i) in
  generate B w (gen_params d) [description i] (rng s) = Some batch ->
  batch !! 0%nat = Some x ->
  wav_encode B (detach_cpu B x) 32000 = Some data ->
  exists s' before,
    main B i s = (Ret tt, s') /\
    filter is_read before = [] /\
    filter is_save before = [] /\
    fs s' !! OUT = Some data /\
    trace s' =
      trace s ++ before ++
      [EvSave OUT 32000;
       EvUi UiSpinnerExit;
       EvUi (UiLayout "container"); EvUi (UiMarkdown card_open);
       EvUi (UiLayout "subheader"); EvUi (UiLayout "expander");
       EvRead OUT; EvUi (UiAudio data "audio/wav");
       EvRead OUT;
       EvUi (UiMarkdown
               (link_html (Base64.b64encode data) "audio_0.wav" (lit "Save .wav")));
       EvUi (UiMarkdown card_close); EvUi (UiSuccess success_msg)].
Proof.
  intros Hpage Hbtn Htext Hl d Hg Hx Hw.
  assert (Ht : truthy (strip (description i)) = true)
    by (by rewrite truthy_strip, Htext).
  destruct (main_generate_ok B i s h w batch x data Hpage Hbtn Ht Hl Hg Hx Hw)
    as (s' & Hrun & Hfs & _ & _ & Htr).
  exists s', (page_head ++ [EvUi UiSpinnerEnter] ++ load_events B s
                ++ [EvSetParams h (gen_params d); EvGenerate h [description i]]).
  split; [exact Hrun|].
  split; [unfold load_events; by destruct (cache s)|].
  split; [unfold load_events; by destruct (cache s)|].
  split; [rewrite Hfs; apply lookup_insert_eq|].
  rewrite Htr. unfold result_card. rewrite <- !app_assoc. reflexivity.
Qed.

(** C9 (amended). Over any sequence of runs, a model that is in the cache
    stays the cached model and is never loaded again, and its weights stay
    as they are; its generation parameters either stay as they are or are
    the ones [generate_music] has put there: sampling on, top-k 250 and a
    duration of the control. *)
Theorem cached_model_only_reparametrised runs s h (m : Model B) :
  cache s = Some h ->
  heap s !! h = Some m ->
  cache (session B runs s) = Some h /\
  loads (session B runs s) = loads s /\
  exists m',
    heap (session B runs s) !! h = Some m' /\
    weights m' = weights m /\
    (params m' = params m \/
     exists d, 1 <= d <= 30 /\ params m' = gen_params d).
Proof.
  intros Hc Hm. pose proof (run_rel_session B runs s) as R.
  destruct (rel_cache B _ _ R h Hc) as [Hc' Hl].
  split; [exact Hc'|]. split; [exact Hl|].
  exact (rel_heap B _ _ R h m Hm).
Qed.

(** C10. Every save of any sequence of runs goes to
    [audio_output/audio_0.wav]; no other file is created or changed; so a
    process that starts with an empty output directory never has more than
    that one file. *)
Theorem single_output_file :
  OUT = "audio_output/audio_0.wav"%string /\
  (forall runs s,
     exists new,
       trace (session B runs s) = trace s ++ new /\
       Forall (fun p => p = OUT) (saved_paths new)) /\
  (forall runs s, dom (fs (session B runs s)) ⊆ dom (fs s) ∪ {[OUT]}) /\
  (forall runs, size (fs (session B runs (initial B))) <= 1)%nat.
Proof.
  assert (Hdom : forall runs s,
             dom (fs (session B runs s)) ⊆ dom (fs s) ∪ {[OUT]}).
  { intros runs s p Hp. pose proof (rel_fs B _ _ (run_rel_session B runs s) p) as F.
    destruct (decide (p = OUT)) as [->|Hne]; [set_solver|].
    apply elem_of_union_l. apply elem_of_dom. rewrite <- (F Hne).
    by apply elem_of_dom. }
  split; [reflexivity|]. split; [|split; [exact Hdom|]].
  - intros runs s.
    destruct (rel_trace B _ _ (run_rel_session B runs s)) as (new & Htr & Hok).
    exists new. split; [exact Htr|by apply saved_paths_ok].
  - intros runs. rewrite <- size_dom.
    etrans; [apply subseteq_size, Hdom|].
    cbn [initial fs]. rewrite dom_empty_L, (left_id_L ∅ (∪)), size_singleton. done.
Qed.

End Pipeline.

(** ** The statements at work on the toy backend *)

Lemma generate_music_spec_witness :
  one_per_prompt Toy.toy /\
  (generate_music Toy.toy Toy.prompt 5 (initial Toy.toy)).1
    = Ret [x04; x04; x04; x04; x04] /\
  heap (generate_music Toy.toy Toy.prompt 5 (initial Toy.toy)).2 !! 0%nat
    = Some {| weights := tt : Weights Toy.toy; params := gen_params 5 |}.
Proof.
  pose proof (generate_music_spec Toy.toy Toy.prompt 5 (initial Toy.toy)
                toy_one_per_prompt) as H.
  cbv zeta in H. cbn [after_load initial cache] in H.
  destruct H as (Hh & _ & _ & _ & _ & Hres).
  split; [exact toy_one_per_prompt|]. split; [|exact Hh].
  destruct Hres as (x & Hx & Hr). injection Hx as <-. exact Hr.
Defined.

Lemma save_waveform_overwrites_witness :
  wav_encode Toy.toy (detach_cpu Toy.toy [x01]) 32000 = Some [x00; x01] /\
  wav_encode Toy.toy (detach_cpu Toy.toy [x02; x03]) 32000 = Some [x00; x02; x03] /\
  fs (save_waveform Toy.toy [x02; x03] 0 32000
        (save_waveform Toy.toy [x01] 0 32000 (initial Toy.toy)).2).2
    !! "audio_output/audio_0.wav"%string = Some [x00; x02; x03].
Proof.
  split; [reflexivity|]. split; [reflexivity|].
  exact (proj1 (proj2 (proj2 (proj2
           (save_waveform_overwrites Toy.toy [x01] [x02; x03] 0 32000
              (initial Toy.toy) [x00; x01] [x00; x02; x03] eq_refl eq_refl))))).
Defined.

Lemma blank_prompt_halts_witness :
  forallb isspace (lit "  ") = true /\
  exists s', main Toy.toy (Toy.press [] (lit "  ")) (initial Toy.toy) = (Stop, s') /\
             fs s' = ∅.
Proof.
  split; [reflexivity|].
  destruct (blank_prompt_halts Toy.toy (Toy.press [] (lit "  ")) (initial Toy.toy)
              eq_refl eq_refl eq_refl) as (s' & Hrun & Hfs & _).
  exists s'. split; [exact Hrun|exact Hfs].
Defined.

Lemma load_model_idempotent_witness :
  is_Some (get_pretrained Toy.toy (loads (initial Toy.toy)) MODEL_NAME) /\
  exists h,
    (load_model Toy.toy (initial Toy.toy)).1 = Ret h /\
    load_model Toy.toy (load_model Toy.toy (initial Toy.toy)).2
      = (Ret h, (load_model Toy.toy (initial Toy.toy)).2) /\
    loads (load_model Toy.toy (load_model Toy.toy (initial Toy.toy)).2).2 = 1%nat.
Proof.
  assert (Hok : is_Some (get_pretrained Toy.toy (loads (initial Toy.toy)) MODEL_NAME))
    by (eexists; reflexivity).
  split; [exact Hok|].
  destruct (load_model_idempotent Toy.toy (initial Toy.toy) (or_intror Hok))
    as (h & Hr1 & Hr2 & _ & Hloads & _).
  exists h. split; [exact Hr1|]. split; [exact Hr2|exact Hloads].
Defined.

Lemma download_link_payload_witness :
  (download_link Toy.toy (audio_path 0) (lit "Save .wav")
     (set_fs Toy.toy {[ OUT := [x4d; x61; x6e] ]} (initial Toy.toy))).1
  = Ret (link_html "TWFu" "audio_0.wav" (lit "Save .wav")).
Proof.
  exact (proj1 (proj1 (proj2 (download_link_payload Toy.toy))
                  (audio_path 0) (lit "Save .wav")
                  (set_fs Toy.toy {[ OUT := [x4d; x61; x6e] ]} (initial Toy.toy))
                  [x4d; x61; x6e] eq_refl)).
Defined.


Lemma read_follows_write_witness :
  exists s',
    main Toy.toy (Toy.press [31; 2] Toy.prompt) (initial Toy.toy) = (Ret tt, s') /\
    fs s' !! OUT = Some [x00; x04; x04].
Proof.
  destruct (read_follows_write Toy.toy (Toy.press [31; 2] Toy.prompt)
              (initial Toy.toy) 0%nat tt [[x04; x04]] [x04; x04]
              [x00; x04; x04]
              eq_refl eq_refl eq_refl eq_refl eq_refl eq_refl eq_refl)
    as (s' & before & Hrun & _ & _ & Hfs & _).
  exists s'. split; [exact Hrun|exact Hfs].
Defined.

Lemma cached_model_only_reparametrised_witness :
  cache (load_model Toy.toy (initial Toy.toy)).2 = Some 0%nat /\
  cache (session Toy.toy [Toy.press [3] Toy.prompt; Toy.press [3; 7] Toy.prompt]
           (load_model Toy.toy (initial Toy.toy)).2) = Some 0%nat /\
  loads (session Toy.toy [Toy.press [3] Toy.prompt; Toy.press [3; 7] Toy.prompt]
           (load_model Toy.toy (initial Toy.toy)).2) = 1%nat.
Proof.
  split; [reflexivity|].
  destruct (cached_model_only_reparametrised Toy.toy
              [Toy.press [3] Toy.prompt; Toy.press [3; 7] Toy.prompt]
              (load_model Toy.toy (initial Toy.toy)).2 0%nat
              {| weights := tt : Weights Toy.toy; params := gen_params 15 |}
              eq_refl eq_refl) as (Hc & Hl & _).
  split; [exact Hc|exact Hl].
Defined.

(** ** Where the specification and the program part *)


(** C9, as stated, fails: the model in the cache after the load carries a
    duration of 15; after one call of [generate_music] the same cached
    object carries a duration of 5. *)
Lemma cached_model_is_mutated :
  cache (load_model Toy.toy (initial Toy.toy)).2 = Some 0%nat /\
  heap (load_model Toy.toy (initial Toy.toy)).2 !! 0%nat
    = Some {| weights := tt : Weights Toy.toy; params := gen_params 15 |} /\
  cache (generate_music Toy.toy Toy.prompt 5
           (load_model Toy.toy (initial Toy.toy)).2).2 = Some 0%nat /\
  heap (generate_music Toy.toy Toy.prompt 5
          (load_model Toy.toy (initial Toy.toy)).2).2 !! 0%nat
    = Some {| weights := tt : Weights Toy.toy; params := gen_params 5 |} /\
  gen_params 15 ≠ gen_params 5.
Proof.
  split; [reflexivity|]. split; [reflexivity|]. split; [reflexivity|].
  split; [reflexivity|]. discriminate.
Qed.

(** * Further properties of the helpers and of the page *)

(** ** Paths of different indices *)

Lemma to_int_proper z : Z.to_int z <> Decimal.Pos Decimal.Nil /\ Z.to_int z <> Decimal.Neg Decimal.Nil.
Proof.
  destruct z as [|p|p]; cbn; split; try discriminate.
  - intros [= H]. by apply (DecimalPos.Unsigned.to_uint_nonnil p).
  - intros [= H]. by apply (DecimalPos.Unsigned.to_uint_nonnil p).
Qed.

Lemma str_of_int_inj i j : str_of_int i = str_of_int j -> i = j.
Proof.
  unfold str_of_int. intros H. apply DecimalZ.to_int_inj.
  apply (f_equal NilZero.int_of_string) in H.
  destruct (to_int_proper i), (to_int_proper j).
  rewrite !NilZero.isi in H by done. by injection H.
Qed.

Lemma list_ascii_of_app s1 s2 :
  list_ascii_of_string (s1 +:+ s2) = list_ascii_of_string s1 ++ list_ascii_of_string s2.
Proof. induction s1 as [|c s1 IH]; simpl; [done|]. by rewrite IH. Qed.

Lemma string_app_inv_tail s1 s2 t : s1 +:+ t = s2 +:+ t -> s1 = s2.
Proof.
  intros H. apply (f_equal list_ascii_of_string) in H.
  rewrite !list_ascii_of_app in H. apply app_inv_tail in H.
  rewrite <- (string_of_list_ascii_of_string s1), <- (string_of_list_ascii_of_string s2).
  by rewrite H.
Qed.

Lemma audio_path_inj i j :
  PyPath.to_str (audio_path i) = PyPath.to_str (audio_path j) -> i = j.
Proof.
  cbn. intros H. injection H as H.
  apply str_of_int_inj. by apply (string_app_inv_tail _ _ ".wav").
Qed.

(** X1. Saving at one index leaves the file of every other index as it
    was: different indices have different paths. *)
Theorem save_waveform_other_index (B : Backend) wave i j sr (s : Process B) :
  i <> j ->
  PyPath.to_str (audio_path i) <> PyPath.to_str (audio_path j) /\
  fs (save_waveform B wave j sr s).2 !! PyPath.to_str (audio_path i)
    = fs s !! PyPath.to_str (audio_path i).
Proof.
  intros Hij.
  assert (Hne : PyPath.to_str (audio_path j) <> PyPath.to_str (audio_path i)).
  { intros H. apply Hij. symmetry. by apply audio_path_inj. }
  split; [done|].
  rewrite save_waveform_run. cbv zeta.
  destruct (wav_encode B _ _); cbn [snd fs set_fs log]; [|done].
  by rewrite lookup_insert_ne.
Qed.

(** ** States after rendering *)

Section StateLemmas.
Variable B : Backend.
Implicit Types s : Process B.

Lemma logs_app es1 es2 s : logs B (es1 ++ es2) s = logs B es2 (logs B es1 s).
Proof. revert s. induction es1 as [|e es1 IH]; intros s; cbn; [done|apply IH]. Qed.

Lemma logs_state es s :
  cache (logs B es s) = cache s /\ heap (logs B es s) = heap s /\
  loads (logs B es s) = loads s /\ rng (logs B es s) = rng s /\
  fs (logs B es s) = fs s /\ trace (logs B es s) = trace s ++ es.
Proof.
  revert s. induction es as [|e es IH]; intros s; cbn [logs].
  - by rewrite app_nil_r.
  - destruct (IH (log B e s)) as (-> & -> & -> & -> & -> & ->).
    cbn. by rewrite <- app_assoc.
Qed.

Lemma after_load_logs es s : after_load B (logs B es s) = after_load B s.
Proof.
  unfold after_load. destruct (logs_state es s) as (-> & -> & -> & _). done.
Qed.

Lemma load_events_logs es s : load_events B (logs B es s) = load_events B s.
Proof.
  unfold load_events. destruct (logs_state es s) as (-> & _). done.
Qed.

Lemma load_model_state s h w :
  after_load B s = Some (h, w) ->
  exists s1 p,
    load_model B s = (Ret h, s1) /\
    cache s1 = Some h /\
    heap s1 !! h = Some {| weights := w; params := p |} /\
    length (heap s1) = (length (heap s) + length (load_events B s))%nat /\
    loads s1 = (loads s + length (load_events B s))%nat /\
    fs s1 = fs s /\ rng s1 = rng s /\
    trace s1 = trace s ++ load_events B s.
Proof.
  intros Hl. rewrite load_model_run. unfold after_load, load_events in *.
  destruct (cache s) as [h'|] eqn:Hc.
  - destruct (heap s !! h') as [[w' p]|] eqn:Hm; simplify_eq/=.
    exists s, p. rewrite app_nil_r, !Nat.add_0_r. done.
  - destruct (get_pretrained B (loads s) MODEL_NAME) as [[w' p]|]; simplify_eq/=.
    eexists _, p. split; [done|]. cbn.
    rewrite lookup_app_r, Nat.sub_diag, length_app by done. cbn.
    repeat split; try done. lia.
Qed.

Lemma generate_music_state s description d h w :
  after_load B s = Some (h, w) ->
  let r := generate_music B description d s in
  cache r.2 = Some h /\
  heap r.2 !! h = Some {| weights := w; params := gen_params d |} /\
  length (heap r.2) = (length (heap s) + length (load_events B s))%nat /\
  loads r.2 = (loads s + length (load_events B s))%nat /\
  rng r.2 = S (rng s) /\
  fs r.2 = fs s /\
  trace r.2 = trace s ++ load_events B s
                ++ [EvSetParams h (gen_params d); EvGenerate h [description]] /\
  r.1 = match generate B w (gen_params d) [description] (rng s) with
        | Some batch =>
            match batch with x :: _ => Ret x | [] => Raise IndexError end
        | None => Raise GenerationError
        end.
Proof.
  intros Hl.
  destruct (load_model_state s h w Hl)
    as (s1 & p & Hrun & Hc & Hh & Hlen & Hloads & Hfs & Hrng & Htr).
  cbv zeta. unfold generate_music. rewrite (bind_ret _ _ _ _ _ _ Hrun).
  assert (Hlt : (h < length (heap s1))%nat) by (by eapply lookup_lt_Some).
  unfold bind, set_generation_params, model_generate. rewrite Hh. cbn.
  rewrite list_lookup_insert_eq by done. cbn. fold (gen_params d).
  rewrite Hrng.
  destruct (generate B w (gen_params d) [description] (rng s)) as [batch|]; cbn.
  - unfold getitem. destruct batch as [|x batch]; cbn;
      rewrite list_lookup_insert_eq, length_insert by done;
      rewrite Htr, <- !app_assoc; done.
  - rewrite list_lookup_insert_eq, length_insert by done.
    rewrite Htr, <- !app_assoc; done.
Qed.

(** The run of a pressed button with a prompt that is not blank, in terms
    of the call of [generate_music] it makes. *)
Lemma main_pressed (i : Inputs) s :
  page i = Generate -> generate_btn i = true ->
  forallb isspace (description i) = false ->
  main B i s =
  let d := number_input 1 30 10 (duration_entries i) in
  let g := generate_music B (description i) d
             (logs B (page_head ++ [EvUi UiSpinnerEnter]) s) in
  match g.1 with
  | Ret x =>
      match wav_encode B (detach_cpu B x) 32000 with
      | Some data =>
          (Ret tt,
           logs B (result_card data)
             (set_fs B (<[OUT := data]> (fs g.2)) (log B (EvSave OUT 32000) g.2)))
      | None =>
          (Raise SaveError,
           log B (EvUi UiSpinnerExit) (log B (EvSave OUT 32000) g.2))
      end
  | Raise e => (Raise e, log B (EvUi UiSpinnerExit) g.2)
  | Stop => (Stop, log B (EvUi UiSpinnerExit) g.2)
  end.
Proof.
  intros Hpage Hbtn Htext.
  unfold main, preamble. rewrite Hpage. unfold generate_page.
  rewrite Hbtn, truthy_strip, Htext. cbn [negb].
  unfold layout, ui, emit, spinner, bind, ret. cbv beta iota zeta.
  change (logs B (page_head ++ [EvUi UiSpinnerEnter]) s) with
    (log B (EvUi UiSpinnerEnter)
       (log B (EvUi (UiLayout "button"))
          (log B (EvUi (UiLayout "number_input"))
             (log B (EvUi (UiLayout "columns"))
                (log B (EvUi (UiLayout "text_area"))
                   (log B (EvUi (UiLayout "caption"))
                      (log B (EvUi (UiLayout "title"))
                         (log B (EvUi (UiLayout "sidebar.markdown"))
                            (log B (EvUi (UiLayout "sidebar.markdown"))
                               (log B (EvUi (UiLayout "sidebar.radio"))
                                  (log B (EvUi (UiLayout "markdown"))
                                     (log B (EvUi (UiLayout "set_page_config")) s)))))))))))).
  destruct (generate_music B _ _ _) as [[x|e|] s1]; cbn [fst snd]; try reflexivity.
  rewrite save_waveform_run. cbv zeta. fold OUT.
  destruct (wav_encode B (detach_cpu B x) 32000) as [data|]; [|reflexivity].
  unfold download_link, read_bytes, bind, ret. fold OUT.
  do 2 (cbn [fs log set_fs]; rewrite lookup_insert_eq; cbv beta iota).
  reflexivity.
Qed.

End StateLemmas.

(** ** Runs that only render, and runs that stop *)

Section Rendering.
Variable B : Backend.
Implicit Types s : Process B.

Lemma renders_ret {A} (a : A) : renders (ret B a).
Proof. intros s. by exists a, []. Qed.

Lemma renders_ui u : renders (ui B u).
Proof. intros s. by exists tt, [u]. Qed.

Lemma renders_bind {A C} (m : M B A) (k : A -> M B C) :
  renders m -> (forall a, renders (k a)) -> renders (bind B m k).
Proof.
  intros Hm Hk s. destruct (Hm s) as (a & us1 & Hrun).
  destruct (Hk a (logs B (map EvUi us1) s)) as (c & us2 & Hrun2).
  exists c, (us1 ++ us2). unfold bind. rewrite Hrun, Hrun2, map_app, logs_app. done.
Qed.

Lemma renders_for_each {A} (l : list A) (body : A -> M B unit) :
  (forall x, renders (body x)) -> renders (for_each B l body).
Proof.
  intros Hb. induction l as [|x l IH]; cbn [for_each].
  - apply renders_ret.
  - apply renders_bind; [apply Hb|]. intros _. exact IH.
Qed.

Ltac render :=
  repeat first
    [ apply renders_ui | apply renders_ret
    | apply renders_for_each; intros ?
    | apply renders_bind; [|intros ?] ].

Lemma renders_preamble : renders (preamble B).
Proof. unfold preamble, layout. render. Qed.

Lemma renders_about : renders (about_page B).
Proof. unfold about_page, layout. render. Qed.

Lemma renders_idle (i : Inputs) : generate_btn i = false -> renders (generate_page B i).
Proof. intros Hb. unfold generate_page, layout. rewrite Hb. render. Qed.

Lemma renders_main (i : Inputs) :
  page i = About \/ generate_btn i = false -> renders (main B i).
Proof.
  intros Hi. unfold main. apply renders_bind; [apply renders_preamble|]. intros _.
  destruct (page i) eqn:Hp.
  - destruct Hi as [?|Hb]; [done|]. by apply renders_idle.
  - apply renders_about.
Qed.


Lemma generate_music_cases description d s :
  let r := generate_music B description d s in
  fs r.2 = fs s /\
  (exists e, r.1 = Raise e /\ e <> FileNotFoundError /\ e <> SaveError) \/
  fs r.2 = fs s /\ exists x, r.1 = Ret x.
Proof.
  cbv zeta. destruct (after_load B s) as [[h w]|] eqn:Hl.
  - destruct (generate_music_state B s description d h w Hl)
      as (_ & _ & _ & _ & _ & Hfs & _ & Hres).
    destruct (generate B w (gen_params d) [description] (rng s)) as [[|x batch]|].
    + left. split; [done|]. by exists IndexError.
    + right. split; [done|]. by exists x.
    + left. split; [done|]. by exists GenerationError.
  - left. unfold generate_music, bind. rewrite load_model_run.
    unfold after_load in Hl. destruct (cache s) as [h|] eqn:Hc.
    + unfold set_generation_params. destruct (heap s !! h); [done|].
      cbn. split; [done|]. by exists DanglingHandle.
    + destruct (get_pretrained B (loads s) MODEL_NAME); [done|].
      cbn. split; [done|]. by exists LoadError.
Qed.

Lemma main_blank (i : Inputs) s :
  page i = Generate -> generate_btn i = true ->
  forallb isspace (description i) = true ->
  main B i s = (Stop, logs B (page_head ++ [EvUi (UiWarning warning_msg)]) s).
Proof.
  intros Hpage Hbtn Hblank.
  unfold main, preamble. rewrite Hpage. unfold generate_page.
  rewrite Hbtn, truthy_strip, Hblank. reflexivity.
Qed.

(** X2. A run ends by [st.stop()] exactly when the "Generate" page is
    shown, the button is pressed and the prompt is blank; no library call
    and no other path of the script stops a run. *)
Theorem run_stops_iff_blank (i : Inputs) s :
  (main B i s).1 = Stop <->
  page i = Generate /\ generate_btn i = true /\
  forallb isspace (description i) = true.
Proof.
  split.
  - intros Hstop.
    destruct (page i) eqn:Hp; cycle 1.
    { destruct (renders_main i (or_introl Hp) s) as (a & us & Hrun).
      rewrite Hrun in Hstop. done. }
    destruct (generate_btn i) eqn:Hb; cycle 1.
    { destruct (renders_main i (or_intror Hb) s) as (a & us & Hrun).
      rewrite Hrun in Hstop. done. }
    destruct (forallb isspace (description i)) eqn:Ht; [done|].
    rewrite (main_pressed B i s Hp Hb Ht) in Hstop. cbv zeta in Hstop.
    destruct (generate_music_cases (description i)
                (number_input 1 30 10 (duration_entries i))
                (logs B (page_head ++ [EvUi UiSpinnerEnter]) s))
      as [(_ & e & He & _)|(_ & x & Hx)].
    + rewrite He in Hstop. done.
    + rewrite Hx in Hstop. by destruct (wav_encode B _ _).
  - intros (Hp & Hb & Ht). by rewrite main_blank.
Qed.

End Rendering.

(** ** Runs in which a library call raises; consecutive runs *)

Section Failures.
Variable B : Backend.
Implicit Types s : Process B.

Lemma main_generate_state (i : Inputs) s h w batch x data :
  page i = Generate -> generate_btn i = true ->
  forallb isspace (description i) = false ->
  after_load B s = Some (h, w) ->
  let d := number_input 1 30 10 (duration_entries i) in
  generate B w (gen_params d) [description i] (rng s) = Some batch ->
  batch !! 0%nat = Some x ->
  wav_encode B (detach_cpu B x) 32000 = Some data ->
  exists s',
    main B i s = (Ret tt, s') /\
    fs s' = <[OUT := data]> (fs s) /\
    cache s' = Some h /\
    heap s' !! h = Some {| weights := w; params := gen_params d |} /\
    loads s' = (loads s + length (load_events B s))%nat /\
    rng s' = S (rng s) /\
    trace s' = trace s ++ page_head ++ [EvUi UiSpinnerEnter] ++ load_events B s
                ++ [EvSetParams h (gen_params d); EvGenerate h [description i];
                    EvSave OUT 32000]
                ++ result_card data.
Proof.
  intros Hpage Hbtn Htext Hl d Hg Hx Hw.
  rewrite (main_pressed B i s Hpage Hbtn Htext). cbv zeta. fold d.
  set (s0 := logs B (page_head ++ [EvUi UiSpinnerEnter]) s).
  destruct (logs_state B (page_head ++ [EvUi UiSpinnerEnter]) s)
    as (Hc0 & Hh0 & Hl0 & Hr0 & Hf0 & Ht0). fold s0 in Hc0, Hh0, Hl0, Hr0, Hf0, Ht0.
  assert (Hl' : after_load B s0 = Some (h, w)) by (by unfold s0; rewrite after_load_logs).
  destruct (generate_music_state B s0 (description i) d h w Hl')
    as (Hc & Hh & _ & Hloads & Hrng & Hfs & Htr & Hres).
  rewrite Hr0, Hg in Hres. destruct batch as [|x' batch]; [done|].
  injection Hx as ->. rewrite Hres, Hw.
  eexists. split; [reflexivity|].
  cbn [cache heap loads rng fs trace set_fs log logs result_card].
  rewrite Hfs, Hf0, Htr, Ht0, Hloads, Hl0, Hrng, Hr0.
  unfold s0. rewrite load_events_logs.
  repeat split; try done. rewrite <- !app_assoc. reflexivity.
Qed.

(** X4. When the sampler raises, the run raises the same error out of the
    spinner: nothing is saved, read or shown as a result, the files are as
    before, and the model stays cached with the new parameters on it. *)
Theorem generation_failure_propagates (i : Inputs) s h w :
  page i = Generate -> generate_btn i = true ->
  forallb isspace (description i) = false ->
  after_load B s = Some (h, w) ->
  let d := number_input 1 30 10 (duration_entries i) in
  generate B w (gen_params d) [description i] (rng s) = None ->
  exists s',
    main B i s = (Raise GenerationError, s') /\
    fs s' = fs s /\
    cache s' = Some h /\
    heap s' !! h = Some {| weights := w; params := gen_params d |} /\
    trace s' = trace s ++ page_head ++ [EvUi UiSpinnerEnter] ++ load_events B s
                ++ [EvSetParams h (gen_params d); EvGenerate h [description i];
                    EvUi UiSpinnerExit].
Proof.
  intros Hpage Hbtn Htext Hl d Hg.
  rewrite (main_pressed B i s Hpage Hbtn Htext). cbv zeta. fold d.
  set (s0 := logs B (page_head ++ [EvUi UiSpinnerEnter]) s).
  destruct (logs_state B (page_head ++ [EvUi UiSpinnerEnter]) s)
    as (Hc0 & Hh0 & Hl0 & Hr0 & Hf0 & Ht0). fold s0 in Hc0, Hh0, Hl0, Hr0, Hf0, Ht0.
  assert (Hl' : after_load B s0 = Some (h, w)) by (by unfold s0; rewrite after_load_logs).
  destruct (generate_music_state B s0 (description i) d h w Hl')
    as (Hc & Hh & _ & _ & _ & Hfs & Htr & Hres).
  rewrite Hr0, Hg in Hres. rewrite Hres.
  eexists. split; [reflexivity|]. cbn [cache heap fs trace log].
  rewrite Hfs, Hf0, Htr, Ht0. unfold s0. rewrite load_events_logs.
  repeat split; try done. rewrite <- !app_assoc. reflexivity.
Qed.

Lemma generate_music_load_failure description d s :
  cache s = None -> get_pretrained B (loads s) MODEL_NAME = None ->
  generate_music B description d s =
  (Raise LoadError, log B (EvLoad MODEL_NAME) (set_loads B (S (loads s)) s)).
Proof.
  intros Hc Hp. unfold generate_music, bind. by rewrite load_model_run, Hc, Hp.
Qed.

Lemma main_load_failure (i : Inputs) s :
  page i = Generate -> generate_btn i = true ->
  forallb isspace (description i) = false ->
  cache s = None ->
  get_pretrained B (loads s) MODEL_NAME = None ->
  main B i s =
  (Raise LoadError,
   log B (EvUi UiSpinnerExit)
     (log B (EvLoad MODEL_NAME)
        (set_loads B (S (loads (logs B (page_head ++ [EvUi UiSpinnerEnter]) s)))
           (logs B (page_head ++ [EvUi UiSpinnerEnter]) s)))).
Proof.
  intros Hpage Hbtn Htext Hc Hp.
  destruct (logs_state B (page_head ++ [EvUi UiSpinnerEnter]) s)
    as (Hc0 & Hh0 & Hl0 & Hr0 & Hf0 & Ht0).
  rewrite (main_pressed B i s Hpage Hbtn Htext). cbv zeta.
  rewrite generate_music_load_failure by congruence.
  reflexivity.
Qed.

Lemma load_failure_state s0 s :
  cache s = None ->
  cache s0 = cache s -> heap s0 = heap s -> loads s0 = loads s ->
  fs s0 = fs s -> trace s0 = trace s ++ page_head ++ [EvUi UiSpinnerEnter] ->
  let s' := log B (EvUi UiSpinnerExit)
     (log B (EvLoad MODEL_NAME) (set_loads B (S (loads s0)) s0)) in
    cache s' = None /\ heap s' = heap s /\ fs s' = fs s /\
    loads s' = S (loads s) /\
    trace s' = trace s ++ page_head
                 ++ [EvUi UiSpinnerEnter; EvLoad MODEL_NAME; EvUi UiSpinnerExit].
Proof.
  intros Hc Hc0 Hh0 Hl0 Hf0 Ht0 s'. subst s'.
  cbn [cache heap loads fs trace log set_loads].
  rewrite Hc0, Hh0, Hl0, Hf0, Ht0, Hc.
  split; [reflexivity|]. split; [reflexivity|]. split; [reflexivity|].
  split; [reflexivity|]. rewrite <- !app_assoc. reflexivity.
Qed.

(** X5. When the cache is empty and the load raises, the run raises the
    load error after one call of the loader; the cache stays empty, so the
    next run calls the loader again. *)
Theorem load_failure_not_cached (i : Inputs) s :
  page i = Generate -> generate_btn i = true ->
  forallb isspace (description i) = false ->
  cache s = None ->
  get_pretrained B (loads s) MODEL_NAME = None ->
  exists s',
    main B i s = (Raise LoadError, s') /\
    cache s' = None /\ heap s' = heap s /\ fs s' = fs s /\
    loads s' = S (loads s) /\
    trace s' = trace s ++ page_head
                 ++ [EvUi UiSpinnerEnter; EvLoad MODEL_NAME; EvUi UiSpinnerExit].
Proof.
  intros Hpage Hbtn Htext Hc Hp.
  destruct (logs_state B (page_head ++ [EvUi UiSpinnerEnter]) s)
    as (Hc0 & Hh0 & Hl0 & _ & Hf0 & Ht0).
  eexists. split.
  - by apply main_load_failure.
  - by apply load_failure_state.
Qed.

(** X6. When the encoder raises, the run raises the save error right after
    the call of [torchaudio.save]: the file is not read, no player, link or
    success message is shown, and the model stays cached. *)
Theorem save_failure_propagates (i : Inputs) s h w batch x :
  page i = Generate -> generate_btn i = true ->
  forallb isspace (description i) = false ->
  after_load B s = Some (h, w) ->
  let d := number_input 1 30 10 (duration_entries i) in
  generate B w (gen_params d) [description i] (rng s) = Some batch ->
  batch !! 0%nat = Some x ->
  wav_encode B (detach_cpu B x) 32000 = None ->
  exists s',
    main B i s = (Raise SaveError, s') /\
    cache s' = Some h /\
    heap s' !! h = Some {| weights := w; params := gen_params d |} /\
    trace s' = trace s ++ page_head ++ [EvUi UiSpinnerEnter] ++ load_events B s
                ++ [EvSetParams h (gen_params d); EvGenerate h [description i];
                    EvSave OUT 32000; EvUi UiSpinnerExit].
Proof.
  intros Hpage Hbtn Htext Hl d Hg Hx Hw.
  rewrite (main_pressed B i s Hpage Hbtn Htext). cbv zeta. fold d.
  set (s0 := logs B (page_head ++ [EvUi UiSpinnerEnter]) s).
  destruct (logs_state B (page_head ++ [EvUi UiSpinnerEnter]) s)
    as (Hc0 & Hh0 & Hl0 & Hr0 & Hf0 & Ht0). fold s0 in Hc0, Hh0, Hl0, Hr0, Hf0, Ht0.
  assert (Hl' : after_load B s0 = Some (h, w)) by (by unfold s0; rewrite after_load_logs).
  destruct (generate_music_state B s0 (description i) d h w Hl')
    as (Hc & Hh & _ & _ & _ & Hfs & Htr & Hres).
  rewrite Hr0, Hg in Hres. destruct batch as [|x' batch]; [done|].
  injection Hx as ->. rewrite Hres, Hw.
  eexists. split; [reflexivity|]. cbn [cache heap fs trace log].
  rewrite Htr, Ht0. unfold s0. rewrite load_events_logs.
  repeat split; try done. rewrite <- !app_assoc. reflexivity.
Qed.


(** X7. Two successful generations in a row load the model at most once
    (not at all when it was cached), save twice to the same path, and leave
    the file with the second waveform and the model with the second
    duration. *)
Theorem second_generation_reuses_model (i1 i2 : Inputs) s h w b1 x1 data1 b2 x2 data2 :
  page i1 = Generate -> generate_btn i1 = true ->
  forallb isspace (description i1) = false ->
  page i2 = Generate -> generate_btn i2 = true ->
  forallb isspace (description i2) = false ->
  after_load B s = Some (h, w) ->
  let d1 := number_input 1 30 10 (duration_entries i1) in
  let d2 := number_input 1 30 10 (duration_entries i2) in
  generate B w (gen_params d1) [description i1] (rng s) = Some b1 ->
  b1 !! 0%nat = Some x1 ->
  wav_encode B (detach_cpu B x1) 32000 = Some data1 ->
  generate B w (gen_params d2) [description i2] (S (rng s)) = Some b2 ->
  b2 !! 0%nat = Some x2 ->
  wav_encode B (detach_cpu B x2) 32000 = Some data2 ->
  let s2 := session B [i1; i2] s in
  fs s2 = <[OUT := data2]> (fs s) /\
  cache s2 = Some h /\
  heap s2 !! h = Some {| weights := w; params := gen_params d2 |} /\
  loads s2 = (loads s + length (load_events B s))%nat /\
  exists new,
    trace s2 = trace s ++ new /\
    filter is_load new = load_events B s /\
    filter is_save new = [EvSave OUT 32000; EvSave OUT 32000] /\
    durations new = [d1; d2].
Proof.
  intros Hp1 Hb1 Ht1 Hp2 Hb2 Ht2 Hl d1 d2 Hg1 Hx1 Hw1 Hg2 Hx2 Hw2 s2.
  destruct (main_generate_state i1 s h w b1 x1 data1 Hp1 Hb1 Ht1 Hl Hg1 Hx1 Hw1)
    as (s1 & Hrun1 & Hfs1 & Hc1 & Hh1 & Hl1 & Hr1 & Htr1).
  assert (Hl' : after_load B s1 = Some (h, w)).
  { unfold after_load. by rewrite Hc1, Hh1. }
  assert (Hg2' : generate B w (gen_params d2) [description i2] (rng s1) = Some b2)
    by (by rewrite Hr1).
  destruct (main_generate_state i2 s1 h w b2 x2 data2 Hp2 Hb2 Ht2 Hl' Hg2' Hx2 Hw2)
    as (s2' & Hrun2 & Hfs2 & Hc2 & Hh2 & Hl2 & Hr2 & Htr2).
  assert (Hs2 : s2 = s2').
  { unfold s2, session. cbn [fold_left]. rewrite Hrun1. cbn [snd]. by rewrite Hrun2. }
  rewrite Hs2. clear Hs2 s2.
  assert (Hle : load_events B s1 = []) by (unfold load_events; by rewrite Hc1).
  rewrite Hle in Hl2, Htr2. cbn [length app] in Hl2, Htr2.
  split; [by rewrite Hfs2, Hfs1, insert_insert_eq|].
  split; [done|]. split; [done|]. split; [lia|].
  eexists. split; [by rewrite Htr2, Htr1, <- !app_assoc|].
  unfold load_events. destruct (cache s); done.
Qed.

End Failures.

(** ** What no run changes: a frame rule *)

Section Frame.
Variable B : Backend.
Variable R : Process B -> Process B -> Prop.
Hypothesis R_refl : forall s, R s s.
Hypothesis R_trans : forall s1 s2 s3, R s1 s2 -> R s2 s3 -> R s1 s3.
Hypothesis R_log : forall e s, R s (log B e s).
Hypothesis R_rng : forall n s, R s (set_rng B n s).
Hypothesis R_fs : forall f s, R s (set_fs B f s).
Hypothesis R_load : preserves R (load_model B).
Hypothesis R_params :
  forall h a b c, preserves R (set_generation_params B h a b c).

Lemma frame_bind {A C} (m : M B A) (k : A -> M B C) :
  preserves R m -> (forall a, preserves R (k a)) -> preserves R (bind B m k).
Proof.
  intros Hm Hk s. unfold bind. specialize (Hm s).
  destruct (m s) as [[a|e|] s1]; cbn in *; [|done..].
  eapply R_trans; [exact Hm|apply Hk].
Qed.

Lemma frame_ret {A} (a : A) : preserves R (ret B a).
Proof. intros s. apply R_refl. Qed.

Lemma frame_ui u : preserves R (ui B u).
Proof. intros s. apply R_log. Qed.

Lemma frame_stop {A} : preserves R (st_stop B (A:=A)).
Proof. intros s. apply R_refl. Qed.

Lemma frame_spinner {A} (body : M B A) :
  preserves R body -> preserves R (spinner B body).
Proof.
  intros Hb s. unfold spinner.
  specialize (Hb (log B (EvUi UiSpinnerEnter) s)).
  destruct (body _) as [r s1]. cbn in *.
  eapply R_trans; [apply R_log|]. eapply R_trans; [exact Hb|apply R_log].
Qed.

Lemma frame_for_each {A} (l : list A) (body : A -> M B unit) :
  (forall x, preserves R (body x)) -> preserves R (for_each B l body).
Proof.
  intros Hb. induction l as [|x l IH]; cbn [for_each].
  - apply frame_ret.
  - apply frame_bind; [apply Hb|]. intros _. exact IH.
Qed.

Lemma frame_generate_music description d :
  preserves R (generate_music B description d).
Proof.
  unfold generate_music.
  apply frame_bind; [apply R_load|]. intros h.
  apply frame_bind; [apply R_params|]. intros _.
  apply frame_bind.
  - intros s. unfold model_generate. destruct (heap s !! h); [|apply R_refl].
    destruct (generate B _ _ _ _); cbn;
      (eapply R_trans; [apply R_rng|apply R_log]).
  - intros batch s. unfold getitem. destruct (batch !! 0%nat); apply R_refl.
Qed.

Lemma frame_save_waveform wave idx sr : preserves R (save_waveform B wave idx sr).
Proof.
  intros s. rewrite save_waveform_run. cbv zeta.
  destruct (wav_encode B _ _); cbn [snd]; [|apply R_log].
  eapply R_trans; [apply R_log|apply R_fs].
Qed.

Lemma frame_read_bytes path : preserves R (read_bytes B path).
Proof. intros s. unfold read_bytes. destruct (fs s !! _); apply R_log. Qed.

Lemma frame_download_link path label : preserves R (download_link B path label).
Proof.
  unfold download_link. apply frame_bind; [apply frame_read_bytes|].
  intros data. apply frame_ret.
Qed.

Ltac fstep :=
  first
    [ apply frame_ui | apply frame_ret | apply frame_stop
    | apply frame_read_bytes | apply frame_download_link
    | apply frame_save_waveform | apply frame_generate_music
    | apply frame_spinner | apply frame_for_each; intros ?
    | apply frame_bind; [|intros ?] ].

Lemma frame_main i : preserves R (main B i).
Proof.
  unfold main, preamble, layout. repeat fstep.
  destruct (page i).
  - unfold generate_page, layout. repeat fstep.
    destruct (generate_btn i); repeat fstep.
    + destruct (negb _); repeat fstep.
    + match goal with p : _ * _ |- _ => destruct p end. repeat fstep.
  - unfold about_page, layout. repeat fstep.
Qed.

Lemma frame_session runs s : R s (session B runs s).
Proof.
  unfold session. revert s. induction runs as [|i runs IH]; intros s; cbn [fold_left].
  - apply R_refl.
  - eapply R_trans; [apply frame_main|apply IH].
Qed.
End Frame.

Section ModelInvariant.
Variable B : Backend.
Implicit Types s : Process B.

Lemma one_model_session runs s : one_model B s -> one_model B (session B runs s).
Proof.
  apply (frame_session B (fun s s' => one_model B s -> one_model B s')); try done.
  - auto.
  - intros s0. rewrite load_model_run. unfold one_model.
    destruct (cache s0) eqn:Hc; cbn [snd]; [by rewrite Hc|].
    destruct (get_pretrained B (loads s0) MODEL_NAME) as [[w p]|]; cbn.
    + intros ->. done.
    + by rewrite Hc.
  - intros h a b c s0. unfold set_generation_params, one_model.
    destruct (heap s0 !! h) eqn:Hh; cbn; [|done].
    destruct (cache s0); [|intros Hnil; by rewrite Hnil in Hh].
    by rewrite length_insert.
Qed.

(** X8. In a process that starts without a model, whatever the runs, at
    most one model object is ever built, and the cache, when filled, names
    that object. *)
Theorem one_model_per_process runs :
  let s := session B runs (initial B) in
  (length (heap s) <= 1)%nat /\
  (cache s = None -> heap s = []) /\
  (forall h, cache s = Some h -> h = 0%nat /\ is_Some (heap s !! h)).
Proof.
  intros s. assert (H : one_model B s) by (by apply one_model_session).
  unfold one_model in H. destruct (cache s) as [h|].
  - destruct H as [-> Hlen]. split; [lia|]. split; [done|].
    intros h [= <-]. split; [done|]. apply lookup_lt_is_Some. lia.
  - rewrite H. split; [cbn; lia|]. done.
Qed.

(** X10. [generate_music] never changes a file; [save_waveform] never
    changes the model, the cache, the load counter or the random state;
    [download_link] changes nothing but the trace.  This holds whether the
    call returns or raises. *)
Theorem helpers_footprint description d wave idx sr path label s :
  fs (generate_music B description d s).2 = fs s /\
  (let r := save_waveform B wave idx sr s in
   heap r.2 = heap s /\ cache r.2 = cache s /\ loads r.2 = loads s /\
   rng r.2 = rng s) /\
  (let r := download_link B path label s in
   fs r.2 = fs s /\ heap r.2 = heap s /\ cache r.2 = cache s /\
   loads r.2 = loads s /\ rng r.2 = rng s).
Proof.
  split; [|split].
  - by destruct (generate_music_cases B description d s) as [[? _]|[? _]].
  - cbv zeta. rewrite save_waveform_run. cbv zeta. by destruct (wav_encode B _ _).
  - cbv zeta. unfold download_link, bind, read_bytes. by destruct (fs s !! _).
Qed.

End ModelInvariant.

(** ** The exceptions and the file operations of a run *)

Section Taxonomy.
Variable B : Backend.
Implicit Types s : Process B.










End Taxonomy.

(** ** The target of the link *)

Section AnchorFacts.
Import Base64.

Ltac Zify.zify_post_hook ::= Z.to_euclidean_division_equations.

Lemma unlit_lit s : unlit (lit s) = s.
Proof.
  unfold unlit, lit. rewrite map_map.
  rewrite (map_ext _ id), map_id by (intros a; apply ascii_N_embedding).
  apply string_of_list_ascii_of_string.
Qed.

Lemma until_quote_app l r :
  Forall (fun c => c <> 34%N) l -> until_quote (l ++ 34%N :: r) = l.
Proof.
  induction 1 as [|c l Hc _ IH]; cbn; [done|].
  destruct (N.eqb_spec c 34); [done|]. by rewrite IH.
Qed.

Lemma b64_char_no_quote n : (n < 64)%N -> N_of_ascii (b64_char n) <> 34%N.
Proof.
  revert n. apply sextet_cases. intros k Hk.
  do 64 (destruct k as [|k]; [discriminate|]). lia.
Qed.

Lemma b64encode_no_quote data :
  Forall (fun c => c <> 34%N) (lit (b64encode data)).
Proof.
  remember (length data) as n eqn:Hn. revert data Hn.
  induction n as [n IH] using lt_wf_ind. intros [|a [|b [|c rest]]] Hn.
  - constructor.
  - pose proof (to_N_lt a). cbn [b64encode]. unfold lit. cbn [list_ascii_of_string map].
    repeat constructor; try discriminate; apply b64_char_no_quote; lia.
  - pose proof (to_N_lt a). pose proof (to_N_lt b).
    cbn [b64encode]. unfold lit. cbn [list_ascii_of_string map].
    repeat constructor; try discriminate; apply b64_char_no_quote; lia.
  - pose proof (to_N_lt a). pose proof (to_N_lt b). pose proof (to_N_lt c).
    cbn [b64encode]. unfold lit. cbn [list_ascii_of_string map].
    repeat (constructor; [apply b64_char_no_quote; lia|]).
    apply (IH (length rest)); [subst n; cbn [length]; lia|done].
Qed.

Lemma strip_prefix_app p s : strip_prefix p (p ++ s) = Some s.
Proof.
  induction p as [|a p IH]; cbn; [by destruct s|]. by rewrite N.eqb_refl.
Qed.

(** X9. For a file holding [data], the first quoted attribute of the anchor
    [download_link] returns is the [audio/wav] data URI of the Base64 text
    of [data], whatever the label and the file name; decoding its payload
    gives [data] back. *)
Theorem link_target_carries_file (B : Backend) file_path label (s : Process B) data :
  fs s !! PyPath.to_str file_path = Some data ->
  exists html,
    (download_link B file_path label s).1 = Ret html /\
    first_attribute html
      = lit "data:audio/wav;base64," ++ lit (b64encode data) /\
    data_uri_bytes (first_attribute html) = Some data.
Proof.
  intros Hdata. unfold download_link, bind, read_bytes. rewrite Hdata. cbn [fst ret].
  eexists. split; [reflexivity|].
  assert (Hattr : first_attribute
                    (link_html (b64encode data) (PyPath.name file_path) label)
                  = lit "data:audio/wav;base64," ++ lit (b64encode data)).
  { unfold first_attribute, link_html.
    change (after_quote _) with
      (lit "data:audio/wav;base64," ++ lit (b64encode data) ++ 34%N ::
         (lit " download=" ++ [34%N] ++ lit (PyPath.name file_path) ++ [34%N]
            ++ lit ">" ++ label ++ lit " " ++ [11015%N] ++ lit "</a>" ++ [10%N]
            ++ lit "    ")).
    rewrite app_assoc. apply until_quote_app.
    apply Forall_app. split; [|apply b64encode_no_quote].
    repeat constructor; discriminate. }
  split; [exact Hattr|]. rewrite Hattr. unfold data_uri_bytes.
  rewrite strip_prefix_app. cbn [mbind option_bind]. rewrite unlit_lit.
  apply b64_roundtrip.
Qed.

End AnchorFacts.

(** ** The further statements at work on the toy backends *)

Lemma save_waveform_other_index_witness :
  0 <> 1 /\
  fs (save_waveform Toy.toy [x01] 1 32000
        (set_fs Toy.toy {[ OUT := [x00; x07] ]} (initial Toy.toy))).2
    !! PyPath.to_str (audio_path 0)
  = Some [x00; x07].
Proof.
  assert (H01 : 0 <> 1) by discriminate.
  split; [exact H01|].
  rewrite (proj2 (save_waveform_other_index Toy.toy [x01] 0 1 32000
                    (set_fs Toy.toy {[ OUT := [x00; x07] ]} (initial Toy.toy)) H01)).
  reflexivity.
Defined.


Lemma generation_failure_propagates_witness :
  generate ToyFaults.mute tt (gen_params 3) [Toy.prompt] 0 = None /\
  exists s',
    main ToyFaults.mute (Toy.press [3] Toy.prompt) (initial ToyFaults.mute)
      = (Raise GenerationError, s') /\
    fs s' = ∅ /\ cache s' = Some 0%nat.
Proof.
  split; [reflexivity|].
  destruct (generation_failure_propagates ToyFaults.mute (Toy.press [3] Toy.prompt)
              (initial ToyFaults.mute) 0%nat tt
              eq_refl eq_refl eq_refl eq_refl eq_refl)
    as (s' & Hrun & Hfs & Hc & _).
  exists s'. split; [exact Hrun|]. split; [exact Hfs|exact Hc].
Defined.

Lemma load_failure_not_cached_witness :
  get_pretrained ToyFaults.offline 0 MODEL_NAME = None /\
  exists s',
    main ToyFaults.offline (Toy.press [3] Toy.prompt) (initial ToyFaults.offline)
      = (Raise LoadError, s') /\
    cache s' = None /\ loads s' = 1%nat.
Proof.
  split; [reflexivity|].
  destruct (load_failure_not_cached ToyFaults.offline (Toy.press [3] Toy.prompt)
              (initial ToyFaults.offline) eq_refl eq_refl eq_refl eq_refl eq_refl)
    as (s' & Hrun & Hc & _ & _ & Hl & _).
  exists s'. split; [exact Hrun|]. split; [exact Hc|exact Hl].
Defined.

Lemma save_failure_propagates_witness :
  wav_encode ToyFaults.diskfull [x04; x04; x04] 32000 = None /\
  exists s',
    main ToyFaults.diskfull (Toy.press [3] Toy.prompt) (initial ToyFaults.diskfull)
      = (Raise SaveError, s') /\
    cache s' = Some 0%nat.
Proof.
  split; [reflexivity|].
  destruct (save_failure_propagates ToyFaults.diskfull (Toy.press [3] Toy.prompt)
              (initial ToyFaults.diskfull) 0%nat tt [[x04; x04; x04]] [x04; x04; x04]
              eq_refl eq_refl eq_refl eq_refl eq_refl eq_refl eq_refl)
    as (s' & Hrun & Hc & _).
  exists s'. split; [exact Hrun|exact Hc].
Defined.


Lemma second_generation_reuses_model_witness :
  fs (session Toy.toy [Toy.press [3] Toy.prompt; Toy.press [3; 2] Toy.prompt]
        (initial Toy.toy))
    = {[ OUT := [x00; x05; x05] ]} /\
  loads (session Toy.toy [Toy.press [3] Toy.prompt; Toy.press [3; 2] Toy.prompt]
           (initial Toy.toy)) = 1%nat.
Proof.
  destruct (second_generation_reuses_model Toy.toy
              (Toy.press [3] Toy.prompt) (Toy.press [3; 2] Toy.prompt)
              (initial Toy.toy) 0%nat tt
              [[x04; x04; x04]] [x04; x04; x04] [x00; x04; x04; x04]
              [[x05; x05]] [x05; x05] [x00; x05; x05]
              eq_refl eq_refl eq_refl eq_refl eq_refl eq_refl eq_refl
              eq_refl eq_refl eq_refl eq_refl eq_refl eq_refl)
    as (Hfs & _ & _ & Hl & _).
  split; [rewrite Hfs; reflexivity|exact Hl].
Defined.

Lemma link_target_carries_file_witness :
  exists html,
    (download_link Toy.toy (audio_path 0) (lit "Save .wav")
       (set_fs Toy.toy {[ OUT := [x4d; x61; x6e] ]} (initial Toy.toy))).1 = Ret html /\
    data_uri_bytes (first_attribute html) = Some [x4d; x61; x6e].
Proof.
  assert (Hfile : fs (set_fs Toy.toy {[ OUT := [x4d; x61; x6e] ]} (initial Toy.toy))
                    !! PyPath.to_str (audio_path 0) = Some [x4d; x61; x6e])
    by reflexivity.
  destruct (link_target_carries_file Toy.toy (audio_path 0) (lit "Save .wav")
              (set_fs Toy.toy {[ OUT := [x4d; x61; x6e] ]} (initial Toy.toy))
              [x4d; x61; x6e] Hfile) as (html & Hrun & _ & Hbytes).
  exists html. split; [exact Hrun|exact Hbytes].
Defined.

